(** * The shopping-cart store (server/apps/store)

    A shallow embedding of [models.py] and of the cart actions of
    [views.py].  The database is an explicit state that every operation
    takes and returns; Python exceptions are the [Raise] results of a
    small error monad.

    Conventions of the embedding:
    - a [UUIDField] value is an [N];
    - a [DecimalField(max_digits=10, decimal_places=2)] value is a [Z]
      counting hundredths, so 10.00 is [1000];
    - an [IntegerField] value, and every Python [int], is a [Z];
    - the three product tables and the cart table are finite maps keyed
      by primary key; the cart-item table is a list in insertion order
      ([Meta.ordering = created_at]), because its two uniqueness
      constraints are what the proofs are about;
    - the column check of [PositiveIntegerField] (quantity >= 0) is part
      of [Model_save]; the upper bounds of integer and decimal columns
      (and the [OverflowError] or [DataError] beyond them) depend on the
      database backend and are not represented, nor is the foreign key
      from a cart item to its cart;
    - the SUM aggregate behind the totals is computed by the database
      engine, in the engine's own arithmetic (exact decimals on some
      backends, floating point on SQLite); it is a component of the
      database, [sum_products], about which nothing is assumed;
    - [created_at] / [updated_at] are not represented;
    - of the view set, the add-product, remove-product, totals, my-cart
      and clear actions are embedded. *)

From Stdlib Require Import ZArith List Lia Bool String.
From stdpp Require Import base decidable option numbers list gmap strings.

Open Scope Z_scope.

Definition uuid := N.
Bind Scope N_scope with uuid.

(** ** Rows *)

Module Book.
Record t := mk {
  id : uuid;
  title : string;
  author : uuid;
  number_of_pages : Z;
  price_in_euros : Z;
  weight_in_kilograms : Z
}.
End Book.

Module MusicAlbum.
Record t := mk {
  id : uuid;
  artist : uuid;
  number_of_tracks : Z;
  price_in_euros : Z;
  weight_in_kilograms : Z
}.
End MusicAlbum.

Module SoftwareLicense.
Record t := mk {
  id : uuid;
  price_in_euros : Z;
  weight_in_kilograms : Z
}.
End SoftwareLicense.

(** A product instance handed to the cart: one of the three model
    classes. *)
Inductive Product :=
| ABook (b : Book.t)
| AMusicAlbum (m : MusicAlbum.t)
| ASoftwareLicense (s : SoftwareLicense.t).

Definition product_id (p : Product) : uuid :=
  match p with
  | ABook b => Book.id b
  | AMusicAlbum m => MusicAlbum.id m
  | ASoftwareLicense s => SoftwareLicense.id s
  end.

Definition price_in_euros (p : Product) : Z :=
  match p with
  | ABook b => Book.price_in_euros b
  | AMusicAlbum m => MusicAlbum.price_in_euros m
  | ASoftwareLicense s => SoftwareLicense.price_in_euros s
  end.

Definition weight_in_kilograms (p : Product) : Z :=
  match p with
  | ABook b => Book.weight_in_kilograms b
  | AMusicAlbum m => MusicAlbum.weight_in_kilograms m
  | ASoftwareLicense s => SoftwareLicense.weight_in_kilograms s
  end.

(** The [ContentType] rows of the three product models. *)
Inductive ContentType := CTBook | CTMusicAlbum | CTSoftwareLicense.

#[global] Instance ContentType_eq_dec : EqDecision ContentType.
Proof. solve_decision. Defined.

(** [ContentType.objects.get_for_model(product.__class__)] *)
Definition get_for_model (p : Product) : ContentType :=
  match p with
  | ABook _ => CTBook
  | AMusicAlbum _ => CTMusicAlbum
  | ASoftwareLicense _ => CTSoftwareLicense
  end.

Module ShoppingCart.
Record t := mk {
  id : uuid;
  user : option uuid
}.
End ShoppingCart.

Module ShoppingCartItem.
Record t := mk {
  id : uuid;
  cart : uuid;
  quantity : Z;
  content_type : ContentType;
  object_id : uuid;
  product_price : Z;
  product_weight : Z
}.

Definition with_quantity (n : Z) (it : t) : t :=
  mk (id it) (cart it) n (content_type it) (object_id it)
     (product_price it) (product_weight it).

Definition with_cache (price weight : Z) (it : t) : t :=
  mk (id it) (cart it) (quantity it) (content_type it) (object_id it)
     price weight.

(** The columns of [Meta.unique_together]. *)
Definition key (it : t) : uuid * ContentType * uuid :=
  (cart it, content_type it, object_id it).
End ShoppingCartItem.

Abbreviation Item := ShoppingCartItem.t.
Abbreviation LineKey := (uuid * ContentType * uuid)%type.

(** ** The database *)

(** A [decimal.Decimal]: [coefficient * 10 ^ exponent]. *)
Record decimal := mkDecimal {
  coefficient : Z;
  exponent : Z
}.

(** The tables, and the engine's SUM: [sum_products rows] is what the
    database returns for [SUM(quantity * column)] over at least one
    row, the rows given as pairs (quantity, column value in
    hundredths), as Django hands it to Python.  On an engine with exact
    decimal arithmetic that is the exact sum; on SQLite the aggregate
    is computed in floating point and converted to a [Decimal] of 15
    significant digits. *)
Record Database := mkDatabase {
  books : gmap uuid Book.t;
  music_albums : gmap uuid MusicAlbum.t;
  software_licenses : gmap uuid SoftwareLicense.t;
  carts : gmap uuid ShoppingCart.t;
  cart_items : list Item;
  sum_products : list (Z * Z) -> decimal
}.

Definition set_cart_items (rows : list Item) (db : Database) : Database :=
  mkDatabase (books db) (music_albums db) (software_licenses db) (carts db)
             rows (sum_products db).

(** ** Exceptions *)

Inductive Exception :=
| DoesNotExist
| MultipleObjectsReturned
| IntegrityError.

Inductive result (A : Type) :=
| Ok (a : A)
| Raise (e : Exception).
Arguments Ok {A} a.
Arguments Raise {A} e.

Definition bind {A B} (r : result A) (k : A -> result B) : result B :=
  match r with
  | Ok a => k a
  | Raise e => Raise e
  end.

Notation "'do' x <- r ; k" := (bind r (fun x => k))
  (at level 10, x name, r at level 100, k at level 200).

(** ** The generic foreign key *)

(** [content_type.get_object_for_this_type(pk=object_id)], with the
    [ObjectDoesNotExist] that [GenericForeignKey.__get__] turns into
    [None]. *)
Definition resolve (db : Database) (ct : ContentType) (oid : uuid)
  : option Product :=
  match ct with
  | CTBook => ABook <$> books db !! oid
  | CTMusicAlbum => AMusicAlbum <$> music_albums db !! oid
  | CTSoftwareLicense => ASoftwareLicense <$> software_licenses db !! oid
  end.

(** [ShoppingCartItem.product] *)
Definition product (db : Database) (it : Item) : option Product :=
  resolve db (ShoppingCartItem.content_type it) (ShoppingCartItem.object_id it).

(** ** Table access for [ShoppingCartItem] *)

(** [ShoppingCartItem.objects.get(cart=, content_type=, object_id=)] *)
Definition get (rows : list Item) (k : LineKey) : result Item :=
  match filter (fun it => ShoppingCartItem.key it = k) rows with
  | [] => Raise DoesNotExist
  | [it] => Ok it
  | _ :: _ :: _ => Raise MultipleObjectsReturned
  end.

Definition pk_exists (rows : list Item) (pk : uuid) : bool :=
  existsb (fun r => bool_decide (ShoppingCartItem.id r = pk)) rows.

(** Does a row other than the one with primary key [pk] already use the
    [unique_together] columns [k]? *)
Definition key_taken (rows : list Item) (pk : uuid) (k : LineKey) : bool :=
  existsb (fun r => bool_decide (ShoppingCartItem.key r = k)
                    && negb (bool_decide (ShoppingCartItem.id r = pk))) rows.

(** UPDATE ... WHERE id = pk *)
Definition update_row (it : Item) (rows : list Item) : list Item :=
  map (fun r => if bool_decide (ShoppingCartItem.id r = ShoppingCartItem.id it)
                then it else r) rows.

(** DELETE ... WHERE id = pk *)
Definition delete_row (pk : uuid) (rows : list Item) : list Item :=
  filter (fun r => ShoppingCartItem.id r <> pk) rows.

(** [models.Model.save]: the row is checked against the column
    constraint of [PositiveIntegerField] (quantity >= 0), against
    [unique_together] and against the primary key, then written.  With
    [force_insert] (what [create] passes) the row is always inserted;
    otherwise an existing primary key is updated in place and a missing
    one inserted.  Values beyond what the backend's integer column
    holds, and the foreign key to the cart, are outside this
    embedding: it says nothing about the errors they raise. *)
Definition Model_save (force_insert : bool) (db : Database) (it : Item)
  : result Database :=
  let rows := cart_items db in
  if ShoppingCartItem.quantity it <? 0 then Raise IntegrityError
  else if key_taken rows (ShoppingCartItem.id it) (ShoppingCartItem.key it)
  then Raise IntegrityError
  else if pk_exists rows (ShoppingCartItem.id it) then
    if force_insert then Raise IntegrityError
    else Ok (set_cart_items (update_row it rows) db)
  else Ok (set_cart_items (rows ++ [it]) db).

(** The first two lines of [ShoppingCartItem.save]: what the instance
    looks like after the [if self.product:] block. *)
Definition refresh (db : Database) (it : Item) : Item :=
  match product db it with
  | Some p =>
      ShoppingCartItem.with_cache (price_in_euros p) (weight_in_kilograms p) it
  | None => it
  end.

(** [ShoppingCartItem.save]; returns the database and the instance as
    the caller sees it afterwards. *)
Definition save (force_insert : bool) (db : Database) (it : Item)
  : result (Database * Item) :=
  let it' := refresh db it in
  do db' <- Model_save force_insert db it';
  Ok (db', it').

(** [ShoppingCartItem.delete] *)
Definition delete (db : Database) (it : Item) : Database :=
  set_cart_items (delete_row (ShoppingCartItem.id it) (cart_items db)) db.

(** [ShoppingCartItem.objects.create]: build the instance
    ([new_id] is the value [uuid.uuid4] draws for it) and save it with
    [force_insert=True]. *)
Definition create (db : Database) (new_id : uuid) (k : LineKey)
    (quantity price weight : Z) : result (Database * Item) :=
  let '(c, ct, oid) := k in
  save true db (ShoppingCartItem.mk new_id c quantity ct oid price weight).

(** [ShoppingCartItem.objects.get_or_create(..., defaults=...)] *)
Definition get_or_create (db : Database) (new_id : uuid) (k : LineKey)
    (quantity price weight : Z) : result (Database * Item * bool) :=
  match get (cart_items db) k with
  | Ok it => Ok (db, it, false)
  | Raise DoesNotExist =>
      match create db new_id k quantity price weight with
      | Ok (db', it) => Ok (db', it, true)
      | Raise IntegrityError =>
          match get (cart_items db) k with
          | Ok it => Ok (db, it, false)
          | Raise DoesNotExist => Raise IntegrityError
          | Raise e => Raise e
          end
      | Raise e => Raise e
      end
  | Raise e => Raise e
  end.

(** ** [ShoppingCart] methods *)

Definition line_key (self : ShoppingCart.t) (p : Product) : LineKey :=
  (ShoppingCart.id self, get_for_model p, product_id p).

(** [ShoppingCart.add_product] *)
Definition add_product (db : Database) (self : ShoppingCart.t)
    (p : Product) (quantity : Z) (new_id : uuid) : result (Database * Item) :=
  do r <- get_or_create db new_id (line_key self p) quantity
            (price_in_euros p) (weight_in_kilograms p);
  let '(db1, cart_item, created) := r in
  if negb created then
    save false db1
      (ShoppingCartItem.with_quantity
         (ShoppingCartItem.quantity cart_item + quantity) cart_item)
  else Ok (db1, cart_item).

(** [ShoppingCart.remove_product] *)
Definition remove_product (db : Database) (self : ShoppingCart.t)
    (p : Product) (quantity : Z) : result (Database * bool) :=
  match get (cart_items db) (line_key self p) with
  | Ok cart_item =>
      if ShoppingCartItem.quantity cart_item <=? quantity then
        Ok (delete db cart_item, true)
      else
        do r <- save false db
                  (ShoppingCartItem.with_quantity
                     (ShoppingCartItem.quantity cart_item - quantity) cart_item);
        Ok (fst r, true)
  | Raise DoesNotExist => Ok (db, false)
  | Raise e => Raise e
  end.

(** The related manager [self.items]. *)
Definition items (db : Database) (self : ShoppingCart.t) : list Item :=
  filter (fun it => ShoppingCartItem.cart it = ShoppingCart.id self)
         (cart_items db).

(** [aggregate(total=Sum(F('quantity') * F(column)))['total']]: [None]
    over no rows, else what the database engine returns. *)
Definition Sum (db : Database) (rows : list (Z * Z)) : option decimal :=
  match rows with
  | [] => None
  | _ :: _ => Some (sum_products db rows)
  end.

(** What a total is in Python: the [Decimal] the aggregate returned, or
    the [int] literal of [total or 0]. *)
Inductive number :=
| Int (n : Z)
| Decimal (d : decimal).

(** [total or 0]: [None] and a zero [Decimal] are both falsy. *)
Definition or_zero (total : option decimal) : number :=
  match total with
  | None => Int 0
  | Some d => if coefficient d =? 0 then Int 0 else Decimal d
  end.

(** [ShoppingCart.calculate_total_price] *)
Definition calculate_total_price (db : Database) (self : ShoppingCart.t)
  : number :=
  let total :=
    Sum db (map (fun it => (ShoppingCartItem.quantity it,
                            ShoppingCartItem.product_price it))
                (items db self)) in
  or_zero total.

(** [ShoppingCart.calculate_total_weight] *)
Definition calculate_total_weight (db : Database) (self : ShoppingCart.t)
  : number :=
  let total :=
    Sum db (map (fun it => (ShoppingCartItem.quantity it,
                            ShoppingCartItem.product_weight it))
                (items db self)) in
  or_zero total.

Definition get_total_price := calculate_total_price.
Definition get_total_weight := calculate_total_weight.

(** [ShoppingCartItem.get_subtotal_price] / [get_subtotal_weight] *)
Definition get_subtotal_price (it : Item) : Z :=
  ShoppingCartItem.quantity it * ShoppingCartItem.product_price it.

Definition get_subtotal_weight (it : Item) : Z :=
  ShoppingCartItem.quantity it * ShoppingCartItem.product_weight it.

(** ** The cart actions of [ShoppingCartViewSet] *)

Module Views.

(** The JSON payload of add-product, as the action's docstring gives
    it. *)
Record Payload := mkPayload {
  product_type : string;
  product_id : uuid;
  quantity : option Z
}.

Record Request := mkRequest {
  user : uuid;
  data : Payload
}.

Inductive ValidationError := InvalidKind | NotFound | InvalidQuantity.

Record ValidatedData := mkValidatedData {
  vd_product : Product;
  vd_quantity : option Z
}.

Inductive Body :=
| NotFoundPage
| MessageCart (message : string) (cart : ShoppingCart.t)
| Errors (errors : list ValidationError)
| Totals (cart_id : uuid) (total_price total_weight : number)
         (item_count : nat).

Record Response := mkResponse {
  body : Body;
  status : Z
}.

Definition HTTP_200_OK : Z := 200.
Definition HTTP_400_BAD_REQUEST : Z := 400.
Definition HTTP_404_NOT_FOUND : Z := 404.

(** The product-kind tags of the payload. *)
Definition parse_product_type (s : string) : option ContentType :=
  if String.eqb s "book" then Some CTBook
  else if String.eqb s "musicalbum" then Some CTMusicAlbum
  else if String.eqb s "softwarelicense" then Some CTSoftwareLicense
  else None.

(** Modelled from the spec: [AddProductSerializer] lives in
    serializers.py, which is not part of the sources embedded here.
    Following
    sections 4.1, 4.2 and 7: a kind tag outside the enumerated set is
    [InvalidKind], a supplied quantity below 1 is [InvalidQuantity],
    and a well-formed kind and id with no matching product is
    [NotFound]; the field errors are reported together, the lookup
    runs only when there are none. *)
Definition AddProductSerializer (db : Database) (d : Payload)
  : list ValidationError + ValidatedData :=
  let kind_errors :=
    match parse_product_type (product_type d) with
    | Some _ => []
    | None => [InvalidKind]
    end in
  let quantity_errors :=
    match quantity d with
    | Some q => if q <? 1 then [InvalidQuantity] else []
    | None => []
    end in
  match parse_product_type (product_type d), kind_errors ++ quantity_errors with
  | Some ct, [] =>
      match resolve db ct (product_id d) with
      | Some p => inr (mkValidatedData p (quantity d))
      | None => inl [NotFound]
      end
  | _, errors => inl errors
  end.

(** [self.get_object()] over [get_queryset]: the cart with that
    primary key among the requesting user's carts. *)
Definition get_object (db : Database) (request : Request) (pk : uuid)
  : option ShoppingCart.t :=
  match carts db !! pk with
  | Some c =>
      if bool_decide (ShoppingCart.user c = Some (user request))
      then Some c else None
  | None => None
  end.

Definition Http404 : Response :=
  mkResponse NotFoundPage HTTP_404_NOT_FOUND.

(** [ShoppingCartViewSet.add_product]; the serialized cart in the
    body is the cart as the returned database holds it. *)
Definition add_product (db : Database) (request : Request) (pk : uuid)
    (new_id : uuid) : result (Database * Response) :=
  match get_object db request pk with
  | None => Ok (db, Http404)
  | Some cart =>
      match AddProductSerializer db (data request) with
      | inr validated_data =>
          let product := vd_product validated_data in
          let quantity := default 1 (vd_quantity validated_data) in
          do r <- add_product db cart product quantity new_id;
          Ok (fst r,
              mkResponse
                (MessageCart "Product added to cart successfully" cart)
                HTTP_200_OK)
      | inl errors => Ok (db, mkResponse (Errors errors) HTTP_400_BAD_REQUEST)
      end
  end.

(** [ShoppingCartViewSet.get_totals]; the two totals are the values
    handed to [str]. *)
Definition get_totals (db : Database) (request : Request) (pk : uuid)
  : Response :=
  match get_object db request pk with
  | None => Http404
  | Some cart =>
      mkResponse
        (Totals (ShoppingCart.id cart)
                (calculate_total_price db cart)
                (calculate_total_weight db cart)
                (length (items db cart)))
        HTTP_200_OK
  end.

(** [cart.items.all().delete()] *)
Definition delete_items (db : Database) (cart : ShoppingCart.t) : Database :=
  set_cart_items
    (filter (fun it => ShoppingCartItem.cart it <> ShoppingCart.id cart)
            (cart_items db)) db.

(** [ShoppingCartViewSet.clear_cart] *)
Definition clear_cart (db : Database) (request : Request) (pk : uuid)
  : Database * Response :=
  match get_object db request pk with
  | None => (db, Http404)
  | Some cart =>
      (delete_items db cart,
       mkResponse (MessageCart "Cart cleared successfully" cart) HTTP_200_OK)
  end.

End Views.

(** ** Well-formed tables *)

(** What the database itself enforces on the cart-item table: the
    primary key, [unique_together] and the column check of
    [PositiveIntegerField]. *)
Definition unique_pk (rows : list Item) : Prop :=
  NoDup (ShoppingCartItem.id <$> rows).

Definition unique_together (rows : list Item) : Prop :=
  NoDup (ShoppingCartItem.key <$> rows).

Definition storable (rows : list Item) : Prop :=
  Forall (fun it => 0 <= ShoppingCartItem.quantity it) rows.

Definition db_ok (db : Database) : Prop :=
  unique_pk (cart_items db) /\ unique_together (cart_items db)
  /\ storable (cart_items db).


(** Two databases with the same product and cart tables. *)
Definition same_catalog (db db' : Database) : Prop :=
  books db' = books db /\ music_albums db' = music_albums db
  /\ software_licenses db' = software_licenses db /\ carts db' = carts db.


(** ** Vocabulary of the statements *)

(** [db'] is [db] with the line of key [k] now answering [r] to [get],
    every other line and every other table as before. *)
Definition line_set (db db' : Database) (k : LineKey) (r : result Item)
  : Prop :=
  same_catalog db db'
  /\ get (cart_items db') k = r
  /\ forall k', k' <> k -> get (cart_items db') k' = get (cart_items db) k'.

(** The database after the UPDATE, resp. the INSERT, of row [it]. *)
Definition updated (db : Database) (it : Item) : Database :=
  set_cart_items (update_row it (cart_items db)) db.

Definition inserted (db : Database) (it : Item) : Database :=
  set_cart_items (cart_items db ++ [it]) db.

(** The instance [add_product] saves when the line exists. *)
Definition incremented (db : Database) (q : Z) (old : Item) : Item :=
  refresh db (ShoppingCartItem.with_quantity
                (ShoppingCartItem.quantity old + q) old).

(** The instance [add_product] creates when the line is absent. *)
Definition created (db : Database) (self : ShoppingCart.t) (p : Product)
    (q : Z) (new_id : uuid) : Item :=
  refresh db (ShoppingCartItem.mk new_id (ShoppingCart.id self) q
                (get_for_model p) (product_id p)
                (price_in_euros p) (weight_in_kilograms p)).

(** The instance [remove_product] saves when some quantity remains. *)
Definition decremented (db : Database) (q : Z) (old : Item) : Item :=
  refresh db (ShoppingCartItem.with_quantity
                (ShoppingCartItem.quantity old - q) old).

(** ** Sequences of cart operations *)

Inductive Operation :=
| AddProduct (self : ShoppingCart.t) (p : Product) (q : Z) (new_id : uuid)
| RemoveProduct (self : ShoppingCart.t) (p : Product) (q : Z)
| Clear (self : ShoppingCart.t).

Definition step (db : Database) (o : Operation) : result Database :=
  match o with
  | AddProduct self p q new_id =>
      do r <- add_product db self p q new_id; Ok (fst r)
  | RemoveProduct self p q =>
      do r <- remove_product db self p q; Ok (fst r)
  | Clear self => Ok (Views.delete_items db self)
  end.

Fixpoint run (db : Database) (ops : list Operation) : result Database :=
  match ops with
  | [] => Ok db
  | o :: ops' => do db' <- step db o; run db' ops'
  end.


(** ** Sample data *)

Module Sample.
(** Book B of the specification's scenario: price 10.00, weight 1.50. *)
Definition book : Book.t := Book.mk 1 "B" 9 320 1000 150.
Definition album : MusicAlbum.t := MusicAlbum.mk 2 9 12 1500 10.
Definition cart : ShoppingCart.t := ShoppingCart.mk 5 (Some 3%N).

(** The SUM of an engine with exact decimal arithmetic. *)
Definition exact_sum (rows : list (Z * Z)) : decimal :=
  mkDecimal (foldr (fun r acc => fst r * snd r + acc) 0 rows) (-2).

Definition empty_db : Database :=
  mkDatabase {[ 1%N := book ]} {[ 2%N := album ]} ∅ {[ 5%N := cart ]} []
             exact_sum.

(** A line of two copies of the book, cached at the catalogue values. *)
Definition line : Item :=
  ShoppingCartItem.mk 7 5 2 CTBook 1 1000 150.

Definition db : Database := set_cart_items [line] empty_db.

(** The same table after the book was deleted from the catalogue. *)
Definition orphan_db : Database :=
  mkDatabase ∅ {[ 2%N := album ]} ∅ {[ 5%N := cart ]} [line] exact_sum.

(** The same table after the book's price rose to 12.00. *)
Definition dearer_book : Book.t := Book.mk 1 "B" 9 320 1200 150.
Definition dearer_db : Database :=
  mkDatabase {[ 1%N := dearer_book ]} {[ 2%N := album ]} ∅
             {[ 5%N := cart ]} [line] exact_sum.
End Sample.

(** ** The other actions of [ShoppingCartViewSet] *)

Module Actions.

(** What an action uses of a serializer: after [is_valid()], either its
    [errors] or its [validated_data].  The serializer classes are
    arguments of the actions; [E] is whatever they report as errors. *)
Definition Serializer (E : Type) : Type :=
  Database -> Views.Payload -> E + Views.ValidatedData.

Inductive Body (E : Type) :=
| NotFoundPage
| Message (message : string)
| MessageCart (message : string) (cart : ShoppingCart.t)
| Errors (errors : E)
| Cart (cart : ShoppingCart.t).
Arguments NotFoundPage {E}.
Arguments Message {E} message.
Arguments MessageCart {E} message cart.
Arguments Errors {E} errors.
Arguments Cart {E} cart.

Record Response (E : Type) := mkResponse {
  body : Body E;
  status : Z
}.
Arguments mkResponse {E} body status.
Arguments body {E} r.
Arguments status {E} r.

Definition HTTP_201_CREATED : Z := 201.

Definition Http404 {E : Type} : Response E :=
  mkResponse NotFoundPage Views.HTTP_404_NOT_FOUND.

(** [ShoppingCartViewSet.add_product], for any [AddProductSerializer]. *)
Definition add_product {E : Type} (AddProductSerializer : Serializer E)
    (db : Database) (request : Views.Request) (pk : uuid) (new_id : uuid)
  : result (Database * Response E) :=
  match Views.get_object db request pk with
  | None => Ok (db, Http404)
  | Some cart =>
      match AddProductSerializer db (Views.data request) with
      | inr validated_data =>
          let product := Views.vd_product validated_data in
          let quantity := default 1 (Views.vd_quantity validated_data) in
          do r <- add_product db cart product quantity new_id;
          Ok (fst r,
              mkResponse
                (MessageCart "Product added to cart successfully" cart)
                Views.HTTP_200_OK)
      | inl errors =>
          Ok (db, mkResponse (Errors errors) Views.HTTP_400_BAD_REQUEST)
      end
  end.

(** [ShoppingCartViewSet.remove_product], for any
    [RemoveProductSerializer]. *)
Definition remove_product {E : Type} (RemoveProductSerializer : Serializer E)
    (db : Database) (request : Views.Request) (pk : uuid)
  : result (Database * Response E) :=
  match Views.get_object db request pk with
  | None => Ok (db, Http404)
  | Some cart =>
      match RemoveProductSerializer db (Views.data request) with
      | inr validated_data =>
          let product := Views.vd_product validated_data in
          let quantity := default 1 (Views.vd_quantity validated_data) in
          do r <- remove_product db cart product quantity;
          let '(db', removed) := r in
          if removed then
            Ok (db',
                mkResponse
                  (MessageCart "Product removed from cart successfully" cart)
                  Views.HTTP_200_OK)
          else
            Ok (db',
                mkResponse (Message "Product not found in cart")
                  Views.HTTP_404_NOT_FOUND)
      | inl errors =>
          Ok (db, mkResponse (Errors errors) Views.HTTP_400_BAD_REQUEST)
      end
  end.

(** The carts of a user, by a scan of the cart table. *)
Definition carts_of (db : Database) (u : uuid) : list ShoppingCart.t :=
  filter (fun c => ShoppingCart.user c = Some u) ((map_to_list (carts db)).*2).

(** [ShoppingCart.objects.get(user=u)] *)
Definition get_cart (db : Database) (u : uuid) : result ShoppingCart.t :=
  match carts_of db u with
  | [] => Raise DoesNotExist
  | [c] => Ok c
  | _ :: _ :: _ => Raise MultipleObjectsReturned
  end.

Definition set_carts (cs : gmap uuid ShoppingCart.t) (db : Database)
  : Database :=
  mkDatabase (books db) (music_albums db) (software_licenses db) cs
             (cart_items db) (sum_products db).

(** [ShoppingCart.objects.create(user=u)]: [new_id] is the value
    [uuid.uuid4] draws for the primary key. *)
Definition create_cart (db : Database) (new_id u : uuid)
  : result (Database * ShoppingCart.t) :=
  match carts db !! new_id with
  | Some _ => Raise IntegrityError
  | None =>
      let c := ShoppingCart.mk new_id (Some u) in
      Ok (set_carts (<[new_id := c]> (carts db)) db, c)
  end.

(** [ShoppingCart.objects.get_or_create(user=u)] *)
Definition get_or_create_cart (db : Database) (new_id u : uuid)
  : result (Database * ShoppingCart.t * bool) :=
  match get_cart db u with
  | Ok c => Ok (db, c, false)
  | Raise DoesNotExist =>
      match create_cart db new_id u with
      | Ok (db', c) => Ok (db', c, true)
      | Raise IntegrityError =>
          match get_cart db u with
          | Ok c => Ok (db, c, false)
          | Raise DoesNotExist => Raise IntegrityError
          | Raise e => Raise e
          end
      | Raise e => Raise e
      end
  | Raise e => Raise e
  end.

(** [ShoppingCartViewSet.get_my_cart] *)
Definition get_my_cart {E : Type} (db : Database) (request : Views.Request)
    (new_id : uuid) : result (Database * Response E) :=
  do r <- get_or_create_cart db new_id (Views.user request);
  let '(db', cart, created) := r in
  Ok (db',
      mkResponse (Cart cart)
        (if negb created then Views.HTTP_200_OK else HTTP_201_CREATED)).

End Actions.

(** * Properties *)

(** ** Lists with a duplicate-free column *)

Section Column.
Context {A B : Type} `{EqDecision B} (f : A -> B).

Lemma column_inj (l : list A) (x y : A) :
    NoDup (f <$> l) -> x ∈ l -> y ∈ l -> f x = f y -> x = y.
  Proof.
    induction l as [|a l IH]; intros Hnd Hx Hy Hf.
    - inversion Hx.
    - rewrite fmap_cons in Hnd. apply NoDup_cons in Hnd as [Hna Hnd].
      apply elem_of_cons in Hx as [->|Hx]; apply elem_of_cons in Hy as [->|Hy].
      + reflexivity.
      + exfalso. apply Hna. rewrite Hf. by apply list_elem_of_fmap_2.
      + exfalso. apply Hna. rewrite <- Hf. by apply list_elem_of_fmap_2.
      + by apply IH.
  Qed.

  (** At most one row carries a given value of the column. *)
Lemma column_filter (l : list A) (b : B) :
    NoDup (f <$> l) ->
    filter (fun x => f x = b) l = []
    \/ exists x, filter (fun x => f x = b) l = [x].
  Proof.
    induction l as [|a l IH]; intros Hnd.
    - by left.
    - rewrite fmap_cons in Hnd. apply NoDup_cons in Hnd as [Hna Hnd].
      destruct (decide (f a = b)) as [Hab|Hab].
      + right. exists a. rewrite filter_cons_True by done. f_equal.
        destruct (filter (fun x => f x = b) l) as [|y ys] eqn:E; [done|].
        exfalso. apply Hna.
        assert (Hy : y ∈ filter (fun x => f x = b) l) by (rewrite E; left).
        apply list_elem_of_filter in Hy as [Hfy Hy].
        rewrite Hab, <- Hfy. by apply list_elem_of_fmap_2.
      + rewrite filter_cons_False by done. by apply IH.
  Qed.

Lemma column_filter_NoDup (P : A -> Prop) `{forall x, Decision (P x)}
      (l : list A) :
    NoDup (f <$> l) -> NoDup (f <$> filter P l).
  Proof.
    induction l as [|a l IH]; intros Hnd; [done|].
    rewrite fmap_cons in Hnd. apply NoDup_cons in Hnd as [Hna Hnd].
    destruct (decide (P a)).
    - rewrite filter_cons_True by done. rewrite fmap_cons.
      apply NoDup_cons. split; [|by apply IH].
      intros Hin. apply Hna.
      apply list_elem_of_fmap in Hin as (x & -> & Hx).
      apply list_elem_of_filter in Hx as [_ Hx].
      by apply list_elem_of_fmap_2.
    - rewrite filter_cons_False by done. by apply IH.
  Qed.
End Column.

(** ** [get] *)

Lemma get_Ok_elem (rows : list Item) (k : LineKey) (it : Item) :
  get rows k = Ok it -> it ∈ rows /\ ShoppingCartItem.key it = k.
Proof.
  unfold get. intros H.
  destruct (filter _ rows) as [|x [|y l]] eqn:E; try discriminate.
  injection H as ->.
  assert (Hx : it ∈ filter (fun r => ShoppingCartItem.key r = k) rows)
    by (rewrite E; left).
  apply list_elem_of_filter in Hx. tauto.
Qed.

Lemma get_Ok_intro (rows : list Item) (it : Item) :
  unique_together rows -> it ∈ rows ->
  get rows (ShoppingCartItem.key it) = Ok it.
Proof.
  intros Hu Hin. unfold get.
  destruct (column_filter ShoppingCartItem.key rows (ShoppingCartItem.key it) Hu)
    as [E|[x E]].
  - exfalso. by apply (filter_nil_not_elem_of _ rows it E).
  - rewrite E.
    assert (Hx : it ∈ filter (fun r => ShoppingCartItem.key r
                                     = ShoppingCartItem.key it) rows)
      by (apply list_elem_of_filter; done).
    rewrite E in Hx. apply list_elem_of_singleton in Hx. by subst.
Qed.

Lemma get_DoesNotExist_iff (rows : list Item) (k : LineKey) :
  get rows k = Raise DoesNotExist
  <-> forall it, it ∈ rows -> ShoppingCartItem.key it <> k.
Proof.
  unfold get. split.
  - intros H it Hin Hk.
    destruct (filter _ rows) as [|x [|y l]] eqn:E; try discriminate.
    by apply (filter_nil_not_elem_of _ rows it E).
  - intros H.
    destruct (filter _ rows) as [|x l] eqn:E; [done|].
    assert (Hx : x ∈ filter (fun r => ShoppingCartItem.key r = k) rows)
      by (rewrite E; left).
    apply list_elem_of_filter in Hx as [Hk Hx]. by destruct (H x Hx).
Qed.

Lemma get_unique_cases (rows : list Item) (k : LineKey) :
  unique_together rows ->
  get rows k = Raise DoesNotExist \/ exists it, get rows k = Ok it.
Proof.
  intros Hu. unfold get.
  destruct (column_filter ShoppingCartItem.key rows k Hu) as [E|[x E]];
    rewrite E; eauto.
Qed.

(** Two duplicate-free tables that hold the same rows for a key answer
    [get] alike. *)
Lemma get_ext (rows rows' : list Item) (k : LineKey) :
  unique_together rows -> unique_together rows' ->
  (forall x, ShoppingCartItem.key x = k -> x ∈ rows <-> x ∈ rows') ->
  get rows' k = get rows k.
Proof.
  intros Hu Hu' Hx.
  destruct (get_unique_cases rows k Hu) as [E|[it E]]; rewrite E.
  - apply get_DoesNotExist_iff. intros x Hin Hk.
    eapply get_DoesNotExist_iff in E; [by apply E|by apply Hx].
  - apply get_Ok_elem in E as [Hin <-]. apply get_Ok_intro; [done|].
    by apply Hx.
Qed.

(** ** Row updates *)

Lemma pk_exists_true (rows : list Item) (pk : uuid) :
  pk_exists rows pk = true
  <-> exists r, r ∈ rows /\ ShoppingCartItem.id r = pk.
Proof.
  unfold pk_exists. rewrite existsb_exists. split.
  - intros (r & Hin & Hb). exists r. split; [by apply list_elem_of_In|].
    by apply bool_decide_eq_true in Hb.
  - intros (r & Hin & Hb). exists r. split; [by apply list_elem_of_In|].
    by apply bool_decide_eq_true.
Qed.

Lemma pk_exists_false (rows : list Item) (pk : uuid) :
  pk ∉ (ShoppingCartItem.id <$> rows) -> pk_exists rows pk = false.
Proof.
  intros Hn. destruct (pk_exists rows pk) eqn:E; [|done].
  apply pk_exists_true in E as (r & Hin & <-).
  exfalso. apply Hn. by apply list_elem_of_fmap_2.
Qed.

Lemma key_taken_false (rows : list Item) (pk : uuid) (k : LineKey) :
  (forall r, r ∈ rows -> ShoppingCartItem.key r = k ->
             ShoppingCartItem.id r = pk) ->
  key_taken rows pk k = false.
Proof.
  intros H. destruct (key_taken rows pk k) eqn:E; [|done].
  unfold key_taken in E. apply existsb_exists in E as (r & Hin & Hb).
  apply andb_true_iff in Hb as [Hk Hid].
  apply bool_decide_eq_true in Hk. apply negb_true_iff in Hid.
  apply bool_decide_eq_false in Hid.
  exfalso. apply Hid. apply H; [by apply list_elem_of_In|done].
Qed.

Lemma update_row_ids (it : Item) (rows : list Item) :
  ShoppingCartItem.id <$> update_row it rows = ShoppingCartItem.id <$> rows.
Proof.
  unfold update_row. induction rows as [|r rows IH]; [done|].
  cbn [map fmap list_fmap]. f_equal; [|exact IH].
  case_bool_decide; congruence.
Qed.

Lemma update_row_keys (it old : Item) (rows : list Item) :
  unique_pk rows -> old ∈ rows ->
  ShoppingCartItem.id it = ShoppingCartItem.id old ->
  ShoppingCartItem.key it = ShoppingCartItem.key old ->
  ShoppingCartItem.key <$> update_row it rows = ShoppingCartItem.key <$> rows.
Proof.
  intros Hpk Hold Hid Hkey.
  assert (Hall : forall r, r ∈ rows ->
            ShoppingCartItem.id r = ShoppingCartItem.id it -> r = old).
  { intros r Hr Hrid.
    apply (column_inj ShoppingCartItem.id rows); [done..|congruence]. }
  clear Hpk Hold. unfold update_row.
  induction rows as [|r rows IH]; [done|].
  cbn [map fmap list_fmap]. f_equal.
  - case_bool_decide as Hr; [|done].
    rewrite Hkey. f_equal. symmetry. apply Hall; [left|done].
  - apply IH. intros r' Hr'. apply Hall. by right.
Qed.

Lemma elem_of_update_row (it old : Item) (rows : list Item) (x : Item) :
  unique_pk rows -> old ∈ rows ->
  ShoppingCartItem.id it = ShoppingCartItem.id old ->
  x ∈ update_row it rows
  <-> x = it \/ (x ∈ rows /\ x <> old).
Proof.
  intros Hpk Hold Hid. unfold update_row.
  rewrite list_elem_of_In, in_map_iff. split.
  - intros (r & Hr & Hin). apply list_elem_of_In in Hin.
    case_bool_decide as Hrid; subst; [by left|].
    right. split; [done|]. intros ->. by rewrite Hid in Hrid.
  - intros [->|[Hx Hne]].
    + exists old. split; [|by apply list_elem_of_In].
      rewrite bool_decide_eq_true_2; [done|congruence].
    + exists x. split; [|by apply list_elem_of_In].
      rewrite bool_decide_eq_false_2; [done|].
      intros Hxid. apply Hne.
      apply (column_inj ShoppingCartItem.id rows); [done..|congruence].
Qed.

Lemma update_row_Forall (P : Item -> Prop) (it : Item) (rows : list Item) :
  Forall P rows -> P it -> Forall P (update_row it rows).
Proof.
  unfold update_row. intros Hs Hq.
  induction Hs as [|r rows Hr Hs IH]; cbn [map]; constructor; [|exact IH].
  by case_bool_decide.
Qed.

Lemma elem_of_delete_row (pk : uuid) (rows : list Item) (x : Item) :
  x ∈ delete_row pk rows <-> x ∈ rows /\ ShoppingCartItem.id x <> pk.
Proof. unfold delete_row. rewrite list_elem_of_filter. tauto. Qed.

(** ** The cached fields after [refresh] *)

Lemma refresh_id db it :
  ShoppingCartItem.id (refresh db it) = ShoppingCartItem.id it.
Proof. unfold refresh. by destruct (product db it). Qed.

Lemma refresh_key db it :
  ShoppingCartItem.key (refresh db it) = ShoppingCartItem.key it.
Proof. unfold refresh. by destruct (product db it). Qed.

Lemma refresh_quantity db it :
  ShoppingCartItem.quantity (refresh db it) = ShoppingCartItem.quantity it.
Proof. unfold refresh. by destruct (product db it). Qed.

Lemma refresh_resolved db it p :
  product db it = Some p ->
  ShoppingCartItem.product_price (refresh db it) = price_in_euros p
  /\ ShoppingCartItem.product_weight (refresh db it) = weight_in_kilograms p.
Proof. unfold refresh. by intros ->. Qed.

Lemma refresh_unresolved db it :
  product db it = None -> refresh db it = it.
Proof. unfold refresh. by intros ->. Qed.

Lemma product_with_quantity db n it :
  product db (ShoppingCartItem.with_quantity n it) = product db it.
Proof. reflexivity. Qed.

Lemma same_catalog_refl db : same_catalog db db.
Proof. by repeat split. Qed.

Lemma same_catalog_set rows db : same_catalog db (set_cart_items rows db).
Proof. by repeat split. Qed.

Lemma same_catalog_resolve db db' ct oid :
  same_catalog db db' -> resolve db' ct oid = resolve db ct oid.
Proof.
  intros (Hb & Hm & Hs & _). unfold resolve. by rewrite Hb, Hm, Hs.
Qed.


(** ** One row written *)

Section SaveExisting.
Variables (db : Database) (old it : Item).
Hypothesis Hok : db_ok db.
Hypothesis Hold : old ∈ cart_items db.
Hypothesis Hid : ShoppingCartItem.id it = ShoppingCartItem.id old.
Hypothesis Hkey : ShoppingCartItem.key it = ShoppingCartItem.key old.
Hypothesis Hq : 0 <= ShoppingCartItem.quantity it.

Lemma save_existing :
  save false db it = Ok (updated db (refresh db it), refresh db it).
Proof using Hok Hold Hid Hkey Hq.
  destruct Hok as (Hpk & Hut & Hst).
  unfold save, Model_save.
  rewrite refresh_quantity, refresh_id, refresh_key.
  rewrite (proj2 (Z.ltb_ge _ _) Hq).
  rewrite key_taken_false; cycle 1.
  { intros r Hr Hk. rewrite Hkey in Hk. rewrite Hid.
    f_equal. by apply (column_inj ShoppingCartItem.key (cart_items db)). }
  assert (pk_exists (cart_items db) (ShoppingCartItem.id it) = true) as ->.
  { apply pk_exists_true. by exists old. }
  reflexivity.
Qed.

Lemma save_existing_ok : db_ok (updated db (refresh db it)).
Proof using Hok Hold Hid Hkey Hq.
  destruct Hok as (Hpk & Hut & Hst).
  unfold db_ok, unique_pk, unique_together, updated.
  cbn [cart_items set_cart_items].
  rewrite update_row_ids, (update_row_keys (refresh db it) old);
    [|done|done|by rewrite refresh_id|by rewrite refresh_key].
  repeat split; [done..|].
  apply update_row_Forall; [done|]. by rewrite refresh_quantity.
Qed.

Lemma save_existing_line :
  line_set db (updated db (refresh db it)) (ShoppingCartItem.key old)
           (Ok (refresh db it)).
Proof using Hok Hold Hid Hkey Hq.
  pose proof save_existing_ok as (Hpk' & Hut' & _).
  destruct Hok as (Hpk & Hut & Hst).
  assert (Hid' : ShoppingCartItem.id (refresh db it) = ShoppingCartItem.id old)
    by (by rewrite refresh_id).
  assert (Hkey' : ShoppingCartItem.key (refresh db it)
                  = ShoppingCartItem.key old)
    by (by rewrite refresh_key).
  split; [apply same_catalog_set|]. split.
  - rewrite <- Hkey'. apply get_Ok_intro; [done|].
    unfold updated. cbn [cart_items set_cart_items].
    apply (elem_of_update_row (refresh db it) old); [done..|by left].
  - intros k' Hk'. apply get_ext; [done..|].
    intros x Hx. unfold updated. cbn [cart_items set_cart_items].
    rewrite (elem_of_update_row (refresh db it) old) by done. split.
    + intros Hin. right. split; [done|]. intros ->. by apply Hk'.
    + intros [->|[Hin _]]; [|done]. exfalso. apply Hk'. congruence.
Qed.
End SaveExisting.

Section Create.
Variables (db : Database) (it : Item).
Hypothesis Hok : db_ok db.
Hypothesis Habsent :
  get (cart_items db) (ShoppingCartItem.key it) = Raise DoesNotExist.
Hypothesis Hfresh :
  ShoppingCartItem.id it ∉ (ShoppingCartItem.id <$> cart_items db).
Hypothesis Hq : 0 <= ShoppingCartItem.quantity it.

Lemma save_insert :
  save true db it = Ok (inserted db (refresh db it), refresh db it).
Proof using Hok Habsent Hfresh Hq.
  unfold save, Model_save.
  rewrite refresh_quantity, refresh_id, refresh_key.
  rewrite (proj2 (Z.ltb_ge _ _) Hq).
  rewrite key_taken_false; cycle 1.
  { intros r Hr Hk. exfalso.
    by apply (proj1 (get_DoesNotExist_iff _ _) Habsent r). }
  by rewrite pk_exists_false.
Qed.

Lemma save_insert_ok : db_ok (inserted db (refresh db it)).
Proof using Hok Habsent Hfresh Hq.
  destruct Hok as (Hpk & Hut & Hst).
  unfold db_ok, unique_pk, unique_together, storable, inserted.
  cbn [cart_items set_cart_items]. rewrite !fmap_app. cbn [fmap list_fmap].
  rewrite refresh_id, refresh_key.
  repeat split.
  - apply NoDup_app. split; [done|]. split; [|apply NoDup_singleton].
    intros x Hx Hx'. apply list_elem_of_singleton in Hx'. by subst.
  - apply NoDup_app. split; [done|]. split; [|apply NoDup_singleton].
    intros x Hx Hx'. apply list_elem_of_singleton in Hx'. subst.
    apply list_elem_of_fmap in Hx as (r & Hk & Hr).
    by apply (proj1 (get_DoesNotExist_iff _ _) Habsent r).
  - apply Forall_app. split; [done|]. constructor; [|constructor].
    by rewrite refresh_quantity.
Qed.

Lemma save_insert_line :
  line_set db (inserted db (refresh db it)) (ShoppingCartItem.key it)
           (Ok (refresh db it)).
Proof using Hok Habsent Hfresh Hq.
  pose proof save_insert_ok as (Hpk' & Hut' & _).
  destruct Hok as (Hpk & Hut & Hst).
  split; [apply same_catalog_set|]. split.
  - rewrite <- (refresh_key db it). apply get_Ok_intro; [done|].
    unfold inserted. cbn [cart_items set_cart_items].
    apply elem_of_app. right. by left.
  - intros k' Hk'. apply get_ext; [done..|].
    intros x Hx. unfold inserted. cbn [cart_items set_cart_items].
    rewrite elem_of_app, list_elem_of_singleton. split; [tauto|].
    intros [Hin| ->]; [done|]. exfalso. apply Hk'.
    by rewrite <- Hx, refresh_key.
Qed.
End Create.

Section Delete.
Variables (db : Database) (old : Item).
Hypothesis Hok : db_ok db.
Hypothesis Hold : old ∈ cart_items db.

Lemma delete_ok : db_ok (delete db old).
Proof using Hok.
  destruct Hok as (Hpk & Hut & Hst).
  unfold db_ok, unique_pk, unique_together, storable, delete, delete_row.
  cbn [cart_items set_cart_items].
  repeat split; [by apply column_filter_NoDup..|].
  apply Forall_forall. intros x Hx.
  apply list_elem_of_filter in Hx as [_ Hx].
  by apply (proj1 (Forall_forall _ _) Hst).
Qed.

Lemma delete_line :
  line_set db (delete db old) (ShoppingCartItem.key old) (Raise DoesNotExist).
Proof using Hok Hold.
  pose proof delete_ok as (Hpk' & Hut' & _).
  destruct Hok as (Hpk & Hut & Hst).
  split; [apply same_catalog_set|]. split.
  - apply get_DoesNotExist_iff. intros x Hx Hk.
    unfold delete in Hx. cbn [cart_items set_cart_items] in Hx.
    apply elem_of_delete_row in Hx as [Hx Hne]. apply Hne. f_equal.
    by apply (column_inj ShoppingCartItem.key (cart_items db)).
  - intros k' Hk'. apply get_ext; [done..|].
    intros x Hx. unfold delete. cbn [cart_items set_cart_items].
    rewrite elem_of_delete_row. split; [|tauto].
    intros Hin. split; [done|]. intros Hxid. apply Hk'. rewrite <- Hx.
    f_equal. by apply (column_inj ShoppingCartItem.id (cart_items db)).
Qed.
End Delete.

Lemma Sample_empty_db_ok : db_ok Sample.empty_db.
Proof. repeat split; constructor. Qed.

Lemma Sample_rows_ok (d : Database) : cart_items d = [Sample.line] -> db_ok d.
Proof.
  intros E. unfold db_ok, unique_pk, unique_together, storable. rewrite E.
  repeat split; try apply NoDup_singleton.
  constructor; [cbn; lia|constructor].
Qed.

(** ** The two branches of [add_product] and of [remove_product] *)

Lemma pk_exists_elem (rows : list Item) (pk : uuid) :
  pk_exists rows pk = false -> pk ∉ (ShoppingCartItem.id <$> rows).
Proof.
  intros E Hin. apply list_elem_of_fmap in Hin as (r & -> & Hr).
  assert (pk_exists rows (ShoppingCartItem.id r) = true)
    by (apply pk_exists_true; eauto).
  congruence.
Qed.

Lemma stored_quantity (db : Database) (it : Item) :
  db_ok db -> it ∈ cart_items db -> 0 <= ShoppingCartItem.quantity it.
Proof.
  intros (_ & _ & Hst) Hin. exact (proj1 (Forall_forall _ _) Hst it Hin).
Qed.

Lemma create_fails (db : Database) (new_id : uuid) (k : LineKey)
    (q price weight : Z) :
  q < 0 \/ pk_exists (cart_items db) new_id = true ->
  create db new_id k q price weight = Raise IntegrityError.
Proof.
  destruct k as [[c ct] oid]. unfold create, save, Model_save.
  rewrite refresh_quantity, refresh_id, refresh_key.
  cbn [ShoppingCartItem.quantity ShoppingCartItem.id].
  intros [Hq|Hpk].
  - by rewrite (proj2 (Z.ltb_lt _ _) Hq).
  - rewrite Hpk. destruct (q <? 0); [done|]. by destruct (key_taken _ _ _).
Qed.

Lemma get_or_create_absent_fail (db : Database) (new_id : uuid) (k : LineKey)
    (q price weight : Z) :
  get (cart_items db) k = Raise DoesNotExist ->
  create db new_id k q price weight = Raise IntegrityError ->
  get_or_create db new_id k q price weight = Raise IntegrityError.
Proof. intros Hget Hcreate. unfold get_or_create. by rewrite Hget, Hcreate. Qed.

Section Branches.
Variables (db : Database) (self : ShoppingCart.t) (p : Product) (q : Z).
Hypothesis Hok : db_ok db.

Lemma add_product_present (new_id : uuid) (old : Item) :
  get (cart_items db) (line_key self p) = Ok old ->
  0 <= ShoppingCartItem.quantity old + q ->
  add_product db self p q new_id
  = Ok (updated db (incremented db q old), incremented db q old)
  /\ db_ok (updated db (incremented db q old))
  /\ line_set db (updated db (incremented db q old)) (line_key self p)
              (Ok (incremented db q old)).
Proof using Hok.
  intros Hget Hq.
  apply get_Ok_elem in Hget as Hit. destruct Hit as [Hin Hk].
  split; [|split].
  - unfold add_product, get_or_create. rewrite Hget.
    cbn [bind negb]. by apply (save_existing db old).
  - by apply (save_existing_ok db old).
  - rewrite <- Hk. by apply (save_existing_line db old).
Qed.

Lemma add_product_absent (new_id : uuid) :
  get (cart_items db) (line_key self p) = Raise DoesNotExist ->
  0 <= q ->
  new_id ∉ (ShoppingCartItem.id <$> cart_items db) ->
  add_product db self p q new_id
  = Ok (inserted db (created db self p q new_id), created db self p q new_id)
  /\ db_ok (inserted db (created db self p q new_id))
  /\ line_set db (inserted db (created db self p q new_id)) (line_key self p)
              (Ok (created db self p q new_id)).
Proof using Hok.
  intros Hget Hq Hfresh.
  set (it1 := ShoppingCartItem.mk new_id (ShoppingCart.id self) q
                (get_for_model p) (product_id p)
                (price_in_euros p) (weight_in_kilograms p)).
  split; [|split].
  - unfold add_product, get_or_create. rewrite Hget.
    unfold create, line_key. fold it1.
    by rewrite (save_insert db it1).
  - by apply (save_insert_ok db it1).
  - by apply (save_insert_line db it1).
Qed.

(** Whatever [add_product] returns came out of one of the two
    branches. *)
Lemma add_product_cases (new_id : uuid) (db' : Database) (it' : Item) :
  add_product db self p q new_id = Ok (db', it') ->
  (exists old, get (cart_items db) (line_key self p) = Ok old
     /\ 0 <= ShoppingCartItem.quantity old + q
     /\ it' = incremented db q old
     /\ db' = updated db it')
  \/ (get (cart_items db) (line_key self p) = Raise DoesNotExist
      /\ 0 <= q
      /\ (new_id ∉ (ShoppingCartItem.id <$> cart_items db))
      /\ it' = created db self p q new_id
      /\ db' = inserted db it').
Proof using Hok.
  intros Hadd.
  destruct (get_unique_cases (cart_items db) (line_key self p)
              (proj1 (proj2 Hok))) as [Hget|[old Hget]].
  - right.
    assert (Hraise : create db new_id (line_key self p) q (price_in_euros p)
                       (weight_in_kilograms p) = Raise IntegrityError
                     -> False).
    { intros E. revert Hadd. unfold add_product.
      by rewrite (get_or_create_absent_fail _ _ _ _ _ _ Hget E). }
    destruct (Z.ltb_spec q 0) as [Hneg|Hq].
    { exfalso. apply Hraise, create_fails. by left. }
    destruct (pk_exists (cart_items db) new_id) eqn:Hpk.
    { exfalso. apply Hraise, create_fails. by right. }
    apply pk_exists_elem in Hpk.
    destruct (add_product_absent new_id Hget Hq Hpk) as (E & _ & _).
    rewrite E in Hadd. injection Hadd as <- <-. by repeat split.
  - left. exists old.
    destruct (Z.ltb_spec (ShoppingCartItem.quantity old + q) 0) as [Hneg|Hq].
    { exfalso. revert Hadd. unfold add_product, get_or_create.
      rewrite Hget. cbn [bind negb]. unfold save, Model_save.
      rewrite refresh_quantity. cbn [ShoppingCartItem.quantity
        ShoppingCartItem.with_quantity].
      by rewrite (proj2 (Z.ltb_lt _ _) Hneg). }
    destruct (add_product_present new_id old Hget Hq) as (E & _ & _).
    rewrite E in Hadd. injection Hadd as <- <-. by repeat split.
Qed.

Lemma remove_product_absent :
  get (cart_items db) (line_key self p) = Raise DoesNotExist ->
  remove_product db self p q = Ok (db, false).
Proof using Type.
  intros Hget. unfold remove_product. by rewrite Hget.
Qed.

Lemma remove_product_all (old : Item) :
  get (cart_items db) (line_key self p) = Ok old ->
  ShoppingCartItem.quantity old <= q ->
  remove_product db self p q = Ok (delete db old, true)
  /\ db_ok (delete db old)
  /\ line_set db (delete db old) (line_key self p) (Raise DoesNotExist).
Proof using Hok.
  intros Hget Hq.
  apply get_Ok_elem in Hget as Hit. destruct Hit as [Hin Hk].
  split; [|split].
  - unfold remove_product. rewrite Hget.
    by rewrite (proj2 (Z.leb_le _ _) Hq).
  - by apply delete_ok.
  - rewrite <- Hk. by apply delete_line.
Qed.

Lemma remove_product_some (old : Item) :
  get (cart_items db) (line_key self p) = Ok old ->
  q < ShoppingCartItem.quantity old ->
  remove_product db self p q = Ok (updated db (decremented db q old), true)
  /\ db_ok (updated db (decremented db q old))
  /\ line_set db (updated db (decremented db q old)) (line_key self p)
              (Ok (decremented db q old)).
Proof using Hok.
  intros Hget Hq.
  apply get_Ok_elem in Hget as Hit. destruct Hit as [Hin Hk].
  assert (Hq' : 0 <= ShoppingCartItem.quantity
                       (ShoppingCartItem.with_quantity
                          (ShoppingCartItem.quantity old - q) old))
    by (cbn; lia).
  split; [|split].
  - unfold remove_product. rewrite Hget.
    rewrite (proj2 (Z.leb_gt _ _) Hq).
    by rewrite (save_existing db old
                  (ShoppingCartItem.with_quantity
                     (ShoppingCartItem.quantity old - q) old)
                  Hok Hin eq_refl eq_refl Hq').
  - by apply (save_existing_ok db old).
  - rewrite <- Hk. by apply (save_existing_line db old).
Qed.

Lemma remove_product_cases (db' : Database) (b : bool) :
  remove_product db self p q = Ok (db', b) ->
  (get (cart_items db) (line_key self p) = Raise DoesNotExist
   /\ db' = db /\ b = false)
  \/ (exists old, get (cart_items db) (line_key self p) = Ok old
        /\ ShoppingCartItem.quantity old <= q
        /\ db' = delete db old /\ b = true)
  \/ (exists old, get (cart_items db) (line_key self p) = Ok old
        /\ q < ShoppingCartItem.quantity old
        /\ db' = updated db (decremented db q old)
        /\ b = true).
Proof using Hok.
  intros Hrem.
  destruct (get_unique_cases (cart_items db) (line_key self p)
              (proj1 (proj2 Hok))) as [Hget|[old Hget]].
  - left. rewrite (remove_product_absent Hget) in Hrem.
    injection Hrem as <- <-. by repeat split.
  - right. destruct (Z.le_gt_cases (ShoppingCartItem.quantity old) q) as [Hq|Hq].
    + left. exists old. destruct (remove_product_all old Hget Hq) as (E & _).
      rewrite E in Hrem. injection Hrem as <- <-. by repeat split.
    + right. exists old. destruct (remove_product_some old Hget Hq) as (E & _).
      rewrite E in Hrem. injection Hrem as <- <-. by repeat split.
Qed.
End Branches.

(** The cached fields of a refreshed instance: the live product's when
    it resolves, the instance's own otherwise. *)
Lemma refresh_cache (db : Database) (it : Item) :
  (ShoppingCartItem.product_price (refresh db it),
   ShoppingCartItem.product_weight (refresh db it))
  = match product db it with
    | Some live => (price_in_euros live, weight_in_kilograms live)
    | None => (ShoppingCartItem.product_price it,
               ShoppingCartItem.product_weight it)
    end.
Proof. unfold refresh. by destruct (product db it). Qed.

Lemma product_of_line (db : Database) (self : ShoppingCart.t) (p : Product)
    (it : Item) :
  ShoppingCartItem.key it = line_key self p ->
  product db it = resolve db (get_for_model p) (product_id p).
Proof.
  unfold ShoppingCartItem.key, line_key, product.
  intros Hk. injection Hk as _ Hct Hoid. by rewrite Hct, Hoid.
Qed.

(** ** Upsert *)

(** C1. [add_product] on a well-formed table, for every cart, product
    and quantity [q].  If the line (cart, kind, id) exists, the call
    returns that item with its quantity increased by [q], re-saved
    under the same primary key, its cached price and weight those of
    the live product (kept as they were if the product is gone from
    its table).  If no such line exists, it creates one with quantity
    [q] whose price and weight are those of the resolved product (those
    of the instance passed in when the product is not in its table).
    In both cases no other line and no other table changes.  The call
    goes through whenever the quantity to store is one the quantity
    column holds, that is not negative, and the primary key drawn for
    a new row is not in use. *)
Theorem add_product_upsert (db : Database) (self : ShoppingCart.t)
    (p : Product) (q : Z) (new_id : uuid) :
  db_ok db ->
  let k := line_key self p in
  (forall it, get (cart_items db) k = Ok it ->
     0 <= ShoppingCartItem.quantity it + q ->
     exists db' it',
       add_product db self p q new_id = Ok (db', it')
       /\ line_set db db' k (Ok it')
       /\ ShoppingCartItem.id it' = ShoppingCartItem.id it
       /\ ShoppingCartItem.key it' = k
       /\ ShoppingCartItem.quantity it' = ShoppingCartItem.quantity it + q
       /\ (ShoppingCartItem.product_price it', ShoppingCartItem.product_weight it')
          = match resolve db (get_for_model p) (product_id p) with
            | Some live => (price_in_euros live, weight_in_kilograms live)
            | None => (ShoppingCartItem.product_price it,
                       ShoppingCartItem.product_weight it)
            end)
  /\ (get (cart_items db) k = Raise DoesNotExist ->
      0 <= q ->
      new_id ∉ (ShoppingCartItem.id <$> cart_items db) ->
      exists db' it',
        add_product db self p q new_id = Ok (db', it')
        /\ line_set db db' k (Ok it')
        /\ cart_items db' = cart_items db ++ [it']
        /\ ShoppingCartItem.id it' = new_id
        /\ ShoppingCartItem.key it' = k
        /\ ShoppingCartItem.quantity it' = q
        /\ (ShoppingCartItem.product_price it', ShoppingCartItem.product_weight it')
           = match resolve db (get_for_model p) (product_id p) with
             | Some live => (price_in_euros live, weight_in_kilograms live)
             | None => (price_in_euros p, weight_in_kilograms p)
             end).
Proof.
  intros Hok k. split.
  - intros it Hget Hq.
    apply get_Ok_elem in Hget as Hit. destruct Hit as [Hin Hk].
    destruct (add_product_present db self p q Hok new_id it Hget Hq)
      as (E & _ & Hline).
    eexists _, _. split; [exact E|]. split; [exact Hline|].
    unfold incremented.
    rewrite refresh_id, refresh_key, refresh_quantity, refresh_cache.
    rewrite product_with_quantity, (product_of_line db self p it Hk).
    by repeat split.
  - intros Hget Hq Hfresh.
    destruct (add_product_absent db self p q Hok new_id Hget Hq Hfresh)
      as (E & _ & Hline).
    eexists _, _. split; [exact E|]. split; [exact Hline|].
    unfold created.
    rewrite refresh_id, refresh_key, refresh_quantity, refresh_cache.
    by repeat split.
Qed.

Lemma add_product_upsert_witness :
  db_ok Sample.db
  /\ (exists db' it',
        add_product Sample.db Sample.cart (ABook Sample.book) 3 8 = Ok (db', it')
        /\ ShoppingCartItem.quantity it' = 5)
  /\ (exists db' it',
        add_product Sample.db Sample.cart (AMusicAlbum Sample.album) 1 8
        = Ok (db', it')
        /\ cart_items db' = [Sample.line; it']
        /\ ShoppingCartItem.product_price it' = 1500).
Proof.
  split; [by apply Sample_rows_ok|]. split.
  - destruct (add_product_upsert Sample.db Sample.cart (ABook Sample.book) 3 8
                (Sample_rows_ok Sample.db eq_refl)) as [Hpresent _].
    destruct (Hpresent Sample.line eq_refl ltac:(cbn; lia))
      as (db' & it' & H & _ & _ & _ & Hq & _).
    exists db', it'. split; [exact H|exact Hq].
  - destruct (add_product_upsert Sample.db Sample.cart
                (AMusicAlbum Sample.album) 1 8
                (Sample_rows_ok Sample.db eq_refl)) as [_ Habsent].
    destruct (Habsent eq_refl ltac:(lia)
                ltac:(cbn; rewrite list_elem_of_singleton; discriminate))
      as (db' & it' & H & _ & Hrows & _ & _ & _ & Hc).
    exists db', it'. split; [exact H|]. split; [exact Hrows|].
    exact (f_equal fst Hc).
Defined.

(** ** Decrement *)

(** C2. [remove_product] on a well-formed table, for every quantity
    [q].  On an absent line it returns [False] and the database is the
    one it was given.  On a line whose quantity is at most [q] it
    deletes the line and returns [True].  Otherwise it subtracts [q],
    re-saves the item under the same primary key (the save refreshing
    its cache from the live product) and returns [True].
    The result is always the boolean, and no other line or table
    changes. *)
Theorem remove_product_decrement (db : Database) (self : ShoppingCart.t)
    (p : Product) (q : Z) :
  db_ok db ->
  let k := line_key self p in
  (get (cart_items db) k = Raise DoesNotExist ->
     remove_product db self p q = Ok (db, false))
  /\ (forall it, get (cart_items db) k = Ok it ->
        ShoppingCartItem.quantity it <= q ->
        exists db',
          remove_product db self p q = Ok (db', true)
          /\ line_set db db' k (Raise DoesNotExist))
  /\ (forall it, get (cart_items db) k = Ok it ->
        q < ShoppingCartItem.quantity it ->
        exists db' it',
          remove_product db self p q = Ok (db', true)
          /\ line_set db db' k (Ok it')
          /\ ShoppingCartItem.id it' = ShoppingCartItem.id it
          /\ ShoppingCartItem.quantity it' = ShoppingCartItem.quantity it - q
          /\ (ShoppingCartItem.product_price it',
              ShoppingCartItem.product_weight it')
             = match resolve db (get_for_model p) (product_id p) with
               | Some live => (price_in_euros live, weight_in_kilograms live)
               | None => (ShoppingCartItem.product_price it,
                          ShoppingCartItem.product_weight it)
               end).
Proof.
  intros Hok k. split; [|split].
  - by apply remove_product_absent.
  - intros it Hget Hq.
    destruct (remove_product_all db self p q Hok it Hget Hq) as (E & _ & Hl).
    eauto.
  - intros it Hget Hq.
    apply get_Ok_elem in Hget as Hit. destruct Hit as [Hin Hk].
    destruct (remove_product_some db self p q Hok it Hget Hq) as (E & _ & Hl).
    eexists _, _. split; [exact E|]. split; [exact Hl|].
    unfold decremented. rewrite refresh_id, refresh_quantity, refresh_cache.
    rewrite product_with_quantity, (product_of_line db self p it Hk).
    by repeat split.
Qed.

Lemma remove_product_decrement_witness :
  db_ok Sample.db
  /\ remove_product Sample.empty_db Sample.cart (ABook Sample.book) 1
     = Ok (Sample.empty_db, false)
  /\ exists db', remove_product Sample.db Sample.cart (ABook Sample.book) 5
                 = Ok (db', true)
                 /\ get (cart_items db') (5%N, CTBook, 1%N) = Raise DoesNotExist.
Proof.
  split; [by apply Sample_rows_ok|]. split.
  - exact (proj1 (remove_product_decrement Sample.empty_db Sample.cart
                    (ABook Sample.book) 1 Sample_empty_db_ok) eq_refl).
  - destruct (remove_product_decrement Sample.db Sample.cart
                (ABook Sample.book) 5 (Sample_rows_ok Sample.db eq_refl))
      as (_ & Hall & _).
    destruct (Hall Sample.line eq_refl ltac:(cbn; lia)) as (db' & E & _ & Hl & _).
    exists db'. split; [exact E|exact Hl].
Defined.

(** ** Saving a line whose product is gone *)

(** C9. Saving an item whose product no longer resolves succeeds and
    stores the instance as it is: the row keeps the cached price and
    weight it had, only the quantity the caller set is written. *)
Theorem save_unresolved_keeps_cache (db : Database) (old : Item) (n : Z) :
  db_ok db -> old ∈ cart_items db -> 0 <= n ->
  product db old = None ->
  exists db' it',
    save false db (ShoppingCartItem.with_quantity n old) = Ok (db', it')
    /\ line_set db db' (ShoppingCartItem.key old) (Ok it')
    /\ ShoppingCartItem.id it' = ShoppingCartItem.id old
    /\ ShoppingCartItem.quantity it' = n
    /\ ShoppingCartItem.product_price it' = ShoppingCartItem.product_price old
    /\ ShoppingCartItem.product_weight it' = ShoppingCartItem.product_weight old.
Proof.
  intros Hok Hin Hn Hprod.
  set (it := ShoppingCartItem.with_quantity n old).
  assert (Hq : 0 <= ShoppingCartItem.quantity it) by done.
  pose proof (save_existing db old it Hok Hin eq_refl eq_refl Hq) as E.
  pose proof (save_existing_line db old it Hok Hin eq_refl eq_refl Hq) as Hl.
  rewrite (refresh_unresolved db it) in E, Hl
    by (by rewrite <- Hprod).
  eexists _, _. split; [exact E|]. split; [exact Hl|]. by repeat split.
Qed.

Lemma save_unresolved_keeps_cache_witness :
  exists db' it',
    save false Sample.orphan_db (ShoppingCartItem.with_quantity 4 Sample.line)
    = Ok (db', it')
    /\ ShoppingCartItem.product_price it' = 1000.
Proof.
  destruct (save_unresolved_keeps_cache Sample.orphan_db Sample.line 4
              (Sample_rows_ok Sample.orphan_db eq_refl)
              ltac:(left) ltac:(lia) eq_refl)
    as (db' & it' & E & _ & _ & _ & Hp & _).
  exists db', it'. split; [exact E|exact Hp].
Defined.

(** ** Removing nothing *)

(** C10, as the code has it.  On a line that is present with
    quantity at least 1,
    [remove_product] with quantity 0 returns [True]; the line stays,
    under the same primary key and with the same quantity, and it is
    re-saved: its cached price and weight are now those of the live
    product (the old ones if the product no longer resolves). *)
Theorem remove_product_zero (db : Database) (self : ShoppingCart.t)
    (p : Product) (it : Item) :
  db_ok db ->
  get (cart_items db) (line_key self p) = Ok it ->
  1 <= ShoppingCartItem.quantity it ->
  exists db' it',
    remove_product db self p 0 = Ok (db', true)
    /\ line_set db db' (line_key self p) (Ok it')
    /\ ShoppingCartItem.id it' = ShoppingCartItem.id it
    /\ ShoppingCartItem.quantity it' = ShoppingCartItem.quantity it
    /\ (ShoppingCartItem.product_price it', ShoppingCartItem.product_weight it')
       = match resolve db (get_for_model p) (product_id p) with
         | Some live => (price_in_euros live, weight_in_kilograms live)
         | None => (ShoppingCartItem.product_price it,
                    ShoppingCartItem.product_weight it)
         end.
Proof.
  intros Hok Hget Hq.
  apply get_Ok_elem in Hget as Hit. destruct Hit as [Hin Hk].
  destruct (remove_product_some db self p 0 Hok it Hget) as (E & _ & Hl);
    [lia|].
  eexists _, _. split; [exact E|]. split; [exact Hl|].
  unfold decremented.
  rewrite refresh_id, refresh_quantity, refresh_cache.
  rewrite product_with_quantity, (product_of_line db self p it Hk).
  cbn [ShoppingCartItem.with_quantity ShoppingCartItem.id
       ShoppingCartItem.quantity ShoppingCartItem.product_price
       ShoppingCartItem.product_weight].
  repeat split. lia.
Qed.

Lemma remove_product_zero_witness :
  exists db' it',
    remove_product Sample.dearer_db Sample.cart (ABook Sample.dearer_book) 0
    = Ok (db', true)
    /\ get (cart_items db') (5%N, CTBook, 1%N) = Ok it'
    /\ ShoppingCartItem.quantity it' = 2
    /\ ShoppingCartItem.product_price it' = 1200.
Proof.
  destruct (remove_product_zero Sample.dearer_db Sample.cart
              (ABook Sample.dearer_book) Sample.line
              (Sample_rows_ok Sample.dearer_db eq_refl) eq_refl
              ltac:(cbn; lia))
    as (db' & it' & E & (_ & Hl & _) & _ & Hq & Hc).
  exists db', it'. split; [exact E|]. split; [exact Hl|]. split; [exact Hq|].
  exact (f_equal fst Hc).
Defined.

(** The claim C10 as written fails on a line of quantity 0, which
    [add_product] with quantity 0 stores: there the test
    [cart_item.quantity <= quantity] holds, so [remove_product] with
    quantity 0 deletes the line instead of leaving it. *)
Lemma remove_product_zero_deletes_empty_line :
  (exists db0 it0,
     add_product Sample.empty_db Sample.cart (ABook Sample.book) 0 7
     = Ok (db0, it0)
     /\ get (cart_items db0) (line_key Sample.cart (ABook Sample.book))
        = Ok it0
     /\ ShoppingCartItem.quantity it0 = 0
     /\ remove_product db0 Sample.cart (ABook Sample.book) 0
        = Ok (Sample.empty_db, true)
     /\ get (cart_items Sample.empty_db)
            (line_key Sample.cart (ABook Sample.book))
        = Raise DoesNotExist)
  /\ ~ (forall db self p it,
          db_ok db ->
          get (cart_items db) (line_key self p) = Ok it ->
          exists db' it',
            remove_product db self p 0 = Ok (db', true)
            /\ get (cart_items db') (line_key self p) = Ok it'
            /\ ShoppingCartItem.quantity it' = ShoppingCartItem.quantity it).
Proof.
  split.
  - eexists _, _. split; [reflexivity|]. by repeat split.
  - intros H.
    set (line0 := ShoppingCartItem.mk 7 5 0 CTBook 1 1000 150).
    destruct (H (set_cart_items [line0] Sample.empty_db) Sample.cart
                (ABook Sample.book) line0) as (db' & it' & E & Hget & _).
    + unfold db_ok, unique_pk, unique_together, storable.
      repeat split; try apply NoDup_singleton.
      constructor; [done|constructor].
    + reflexivity.
    + vm_compute in E. injection E as <-. discriminate Hget.
Qed.

(** ** Clearing a cart *)

Lemma get_object_same_carts (db db' : Database) request pk :
  carts db' = carts db ->
  Views.get_object db' request pk = Views.get_object db request pk.
Proof. unfold Views.get_object. by intros ->. Qed.

Lemma items_delete_items (db : Database) (cart : ShoppingCart.t) :
  items (Views.delete_items db cart) cart = [].
Proof.
  unfold items, Views.delete_items. cbn [cart_items set_cart_items].
  induction (cart_items db) as [|x l IH]; [done|].
  destruct (decide (ShoppingCartItem.cart x = ShoppingCart.id cart)) as [E|E].
  - rewrite (filter_cons_False (fun it => ShoppingCartItem.cart it
                                          <> ShoppingCart.id cart)); [done|].
    by intros H.
  - rewrite (filter_cons_True (fun it => ShoppingCartItem.cart it
                                         <> ShoppingCart.id cart)) by done.
    by rewrite filter_cons_False.
Qed.

Lemma delete_items_idempotent (db : Database) (cart : ShoppingCart.t) :
  Views.delete_items (Views.delete_items db cart) cart
  = Views.delete_items db cart.
Proof.
  unfold Views.delete_items, set_cart_items. cbn [cart_items books
    music_albums software_licenses carts sum_products]. f_equal.
  induction (cart_items db) as [|x l IH]; [done|].
  destruct (decide (ShoppingCartItem.cart x <> ShoppingCart.id cart)) as [E|E].
  - rewrite (filter_cons_True _ x l) by done.
    rewrite filter_cons_True by done. by rewrite IH.
  - by rewrite (filter_cons_False _ x l).
Qed.

(** C8. When the cart is one of the requesting user's, [clear_cart]
    answers 200 and leaves a table that holds exactly the lines of the
    other carts, in their order; clearing again changes nothing; and
    [get_totals] on the cleared cart reports total price 0, total
    weight 0 and item count 0. *)
Theorem clear_cart_empties (db : Database) (request : Views.Request)
    (pk : uuid) (cart : ShoppingCart.t) :
  Views.get_object db request pk = Some cart ->
  let db' := fst (Views.clear_cart db request pk) in
  Views.status (snd (Views.clear_cart db request pk)) = Views.HTTP_200_OK
  /\ same_catalog db db'
  /\ (forall it, it ∈ cart_items db'
        <-> it ∈ cart_items db
            /\ ShoppingCartItem.cart it <> ShoppingCart.id cart)
  /\ (forall other, ShoppingCart.id other <> ShoppingCart.id cart ->
        items db' other = items db other)
  /\ items db' cart = []
  /\ Views.clear_cart db' request pk = Views.clear_cart db request pk
  /\ Views.get_totals db' request pk
     = Views.mkResponse
         (Views.Totals (ShoppingCart.id cart) (Int 0) (Int 0) 0)
         Views.HTTP_200_OK.
Proof.
  intros Hobj db'.
  assert (Edb : db' = Views.delete_items db cart).
  { unfold db', Views.clear_cart. by rewrite Hobj. }
  assert (Hobj' : Views.get_object db' request pk = Some cart).
  { rewrite Edb. by rewrite (get_object_same_carts db). }
  split; [unfold Views.clear_cart; by rewrite Hobj|].
  split; [rewrite Edb; apply same_catalog_set|].
  split.
  { intros it. rewrite Edb. unfold Views.delete_items.
    cbn [cart_items set_cart_items]. rewrite list_elem_of_filter. tauto. }
  split.
  { intros other Hne. rewrite Edb. unfold items, Views.delete_items.
    cbn [cart_items set_cart_items]. rewrite list_filter_filter.
    apply list_filter_iff. intros x. split; [tauto|].
    intros E. split; [done|]. congruence. }
  split; [rewrite Edb; apply items_delete_items|].
  split.
  { unfold Views.clear_cart. rewrite Hobj', Hobj, Edb.
    by rewrite delete_items_idempotent. }
  unfold Views.get_totals. rewrite Hobj'.
  unfold calculate_total_price, calculate_total_weight.
  rewrite Edb, items_delete_items. reflexivity.
Qed.

Lemma clear_cart_empties_witness :
  Views.get_object Sample.db (Views.mkRequest 3 (Views.mkPayload "" 0 None)) 5
  = Some Sample.cart
  /\ Views.get_totals
       (fst (Views.clear_cart Sample.db
               (Views.mkRequest 3 (Views.mkPayload "" 0 None)) 5))
       (Views.mkRequest 3 (Views.mkPayload "" 0 None)) 5
     = Views.mkResponse (Views.Totals 5 (Int 0) (Int 0) 0) Views.HTTP_200_OK.
Proof.
  split; [reflexivity|].
  exact (proj2 (proj2 (proj2 (proj2 (proj2 (proj2
           (clear_cart_empties Sample.db
              (Views.mkRequest 3 (Views.mkPayload "" 0 None)) 5
              Sample.cart eq_refl))))))).
Defined.

(** ** The cache after a save *)

Lemma save_stored (f : bool) (db db' : Database) (it it' : Item) :
  save f db it = Ok (db', it') ->
  it' = refresh db it /\ it' ∈ cart_items db'.
Proof.
  unfold save, Model_save.
  destruct (_ <? 0); [discriminate|].
  destruct (key_taken _ _ _); [discriminate|].
  destruct (pk_exists _ _) eqn:Hpk.
  - destruct f; [discriminate|]. cbn [bind]. intros H. injection H as <- <-.
    split; [done|]. cbn [cart_items set_cart_items].
    apply pk_exists_true in Hpk as (r & Hr & Hid).
    unfold update_row. rewrite list_elem_of_In, in_map_iff.
    exists r. split; [|by apply list_elem_of_In].
    by rewrite bool_decide_eq_true_2.
  - cbn [bind]. intros H. injection H as <- <-.
    split; [done|]. cbn [cart_items set_cart_items].
    apply elem_of_app. right. by left.
Qed.

(** C4, as the code has it.  A save of a cart item whose product
    resolves stores the live product's price and weight, whether the
    row is created or updated.  Hence: add a product to a cart that has
    no line for it, let the catalogue change, add it again while it
    resolves; the second call succeeds on the same single line, whose
    quantity is the sum of the two and whose cached price and weight
    are those of the product as it is at the second call. *)
Theorem save_refreshes_resolved (db : Database) (self : ShoppingCart.t)
    (p1 : Product) (q1 : Z) (id1 : uuid) :
  (forall f d it live d' it',
     product d it = Some live -> save f d it = Ok (d', it') ->
     it' ∈ cart_items d'
     /\ ShoppingCartItem.product_price it' = price_in_euros live
     /\ ShoppingCartItem.product_weight it' = weight_in_kilograms live)
  /\ (db_ok db -> 0 <= q1 ->
      get (cart_items db) (line_key self p1) = Raise DoesNotExist ->
      id1 ∉ (ShoppingCartItem.id <$> cart_items db) ->
      exists db1 it1,
        add_product db self p1 q1 id1 = Ok (db1, it1)
        /\ forall db2 p2 q2 id2 live,
             cart_items db2 = cart_items db1 ->
             line_key self p2 = line_key self p1 ->
             0 <= q2 ->
             resolve db2 (get_for_model p2) (product_id p2) = Some live ->
             exists db3 it3,
               add_product db2 self p2 q2 id2 = Ok (db3, it3)
               /\ get (cart_items db3) (line_key self p1) = Ok it3
               /\ ShoppingCartItem.id it3 = id1
               /\ ShoppingCartItem.quantity it3 = q1 + q2
               /\ ShoppingCartItem.product_price it3 = price_in_euros live
               /\ ShoppingCartItem.product_weight it3
                  = weight_in_kilograms live).
Proof.
  split.
  - intros f d it live d' it' Hp Hs.
    apply save_stored in Hs as [-> Hin]. split; [done|].
    by apply refresh_resolved.
  - intros Hok Hq1 Habsent Hfresh.
    destruct (add_product_absent db self p1 q1 Hok id1 Habsent Hq1 Hfresh)
      as (E1 & Hok1 & (_ & Hget1 & _)).
    eexists _, _. split; [exact E1|].
    intros db2 p2 q2 id2 live Hrows Hkey Hq2 Hlive.
    cbn [cart_items set_cart_items] in Hget1, Hok1.
    assert (Hok2 : db_ok db2).
    { unfold db_ok. rewrite Hrows. exact Hok1. }
    set (it1 := created db self p1 q1 id1) in *.
    assert (Hget2 : get (cart_items db2) (line_key self p2) = Ok it1).
    { rewrite Hrows, Hkey. exact Hget1. }
    assert (Hit1 : ShoppingCartItem.quantity it1 = q1
                   /\ ShoppingCartItem.id it1 = id1).
    { unfold it1, created. by rewrite refresh_quantity, refresh_id. }
    destruct Hit1 as [Hq Hid].
    destruct (add_product_present db2 self p2 q2 Hok2 id2 it1 Hget2)
      as (E2 & _ & (_ & Hget3 & _)); [lia|].
    eexists _, _. split; [exact E2|]. rewrite <- Hkey.
    split; [exact Hget3|].
    unfold incremented. rewrite refresh_id, refresh_quantity.
    split; [exact Hid|]. split; [cbn; lia|].
    apply refresh_resolved. rewrite product_with_quantity.
    apply get_Ok_elem in Hget2 as [_ Hk].
    by rewrite (product_of_line db2 self p2 it1 Hk).
Qed.

Lemma save_refreshes_resolved_witness :
  exists db1 it1 db3 it3,
    add_product Sample.empty_db Sample.cart (ABook Sample.book) 2 7
    = Ok (db1, it1)
    /\ add_product Sample.dearer_db Sample.cart (ABook Sample.dearer_book) 3 8
       = Ok (db3, it3)
    /\ ShoppingCartItem.quantity it3 = 2 + 3
    /\ ShoppingCartItem.product_price it3 = 1200.
Proof.
  destruct (proj2 (save_refreshes_resolved Sample.empty_db Sample.cart
                     (ABook Sample.book) 2 7)
              Sample_empty_db_ok ltac:(lia) eq_refl ltac:(by intros H%elem_of_nil))
    as (db1 & it1 & E1 & Hnext).
  assert (Hrows : cart_items Sample.dearer_db = cart_items db1).
  { vm_compute in E1. injection E1 as <- _. reflexivity. }
  destruct (Hnext Sample.dearer_db (ABook Sample.dearer_book) 3 8%N
              (ABook Sample.dearer_book) Hrows eq_refl ltac:(lia) eq_refl)
    as (db3 & it3 & E3 & _ & _ & Hq & Hp & _).
  exists db1, it1, db3, it3. split; [exact E1|]. split; [exact E3|].
  split; [exact Hq|exact Hp].
Defined.

(** The claim C4 as written fails: a save does not overwrite the cache
    when the product does not resolve.  The line of [Sample.orphan_db]
    refers to a book that is gone; adding that book again (the caller
    still holds an instance, now priced 12.00) succeeds and leaves the
    line at the 10.00 cached when it was first added. *)
Lemma save_overwrite_is_conditional :
  ~ (forall f d it d' it',
       save f d it = Ok (d', it') ->
       exists live,
         product d it = Some live
         /\ ShoppingCartItem.product_price it' = price_in_euros live
         /\ ShoppingCartItem.product_weight it' = weight_in_kilograms live)
  /\ exists db' it',
       add_product Sample.orphan_db Sample.cart (ABook Sample.dearer_book) 3 8
       = Ok (db', it')
       /\ get (cart_items db') (5%N, CTBook, 1%N) = Ok it'
       /\ ShoppingCartItem.quantity it' = 5
       /\ ShoppingCartItem.product_price it' = 1000
       /\ price_in_euros (ABook Sample.dearer_book) = 1200.
Proof.
  split.
  - intros H.
    destruct (H false Sample.orphan_db
                (ShoppingCartItem.with_quantity 3 Sample.line)
                _ _ eq_refl) as (live & Hp & _).
    discriminate Hp.
  - eexists _, _. split; [reflexivity|]. by repeat split.
Qed.


(** ** Invariants along a run of operations *)

Lemma delete_items_ok (db : Database) (cart : ShoppingCart.t) :
  db_ok db -> db_ok (Views.delete_items db cart).
Proof.
  intros (Hpk & Hut & Hst).
  unfold db_ok, unique_pk, unique_together, storable, Views.delete_items.
  cbn [cart_items set_cart_items].
  repeat split; [by apply column_filter_NoDup..|].
  apply Forall_forall. intros x Hx.
  apply list_elem_of_filter in Hx as [_ Hx].
  by apply (proj1 (Forall_forall _ _) Hst).
Qed.

Lemma step_ok (db db' : Database) (o : Operation) :
  db_ok db -> step db o = Ok db' -> db_ok db'.
Proof.
  intros Hok. destruct o as [self p q new_id|self p q|self]; cbn [step].
  - destruct (add_product db self p q new_id) as [[d it]|e] eqn:E;
      [|discriminate].
    cbn [bind fst]. intros H. injection H as <-.
    destruct (add_product_cases db self p q Hok new_id d it E)
      as [(old & Hget & Hq & -> & ->)|(Hget & Hq & Hfresh & -> & ->)].
    + by apply (add_product_present db self p q Hok new_id old).
    + by apply (add_product_absent db self p q Hok new_id).
  - destruct (remove_product db self p q) as [[d b]|e] eqn:E; [|discriminate].
    cbn [bind fst]. intros H. injection H as <-.
    destruct (remove_product_cases db self p q Hok d b E)
      as [(_ & -> & _)|[(old & Hget & Hq & -> & _)|(old & Hget & Hq & -> & _)]].
    + done.
    + by apply (remove_product_all db self p q Hok old).
    + by apply (remove_product_some db self p q Hok old).
  - intros H. injection H as <-. by apply delete_items_ok.
Qed.

Lemma run_ok (ops : list Operation) (db db' : Database) :
  db_ok db -> run db ops = Ok db' -> db_ok db'.
Proof.
  revert db. induction ops as [|o ops IH]; intros db Hok; cbn [run].
  - intros H. by injection H as <-.
  - destruct (step db o) as [d|e] eqn:E; [|discriminate]. cbn [bind].
    apply IH. by apply (step_ok db d o).
Qed.



Lemma get_Ok_filter (rows : list Item) (k : LineKey) (it : Item) :
  get rows k = Ok it ->
  filter (fun r => ShoppingCartItem.key r = k) rows = [it].
Proof.
  unfold get.
  destruct (filter _ rows) as [|x [|y l]]; try discriminate.
  intros H. by injection H as ->.
Qed.

(** C6. On a table where [unique_together] holds, every run of cart
    operations (add, remove, clear, in any order and with any
    arguments) that completes leaves a table where it still holds; and
    after any [add_product], repeated or not, the cart has exactly one
    line for the product: the item the call returned. *)
Theorem unique_lines_preserved (db : Database) :
  db_ok db ->
  (forall ops db', run db ops = Ok db' ->
     unique_together (cart_items db') /\ db_ok db')
  /\ (forall self p q new_id db' it,
        add_product db self p q new_id = Ok (db', it) ->
        filter (fun r => ShoppingCartItem.key r = line_key self p)
               (cart_items db') = [it]).
Proof.
  intros Hok. split.
  - intros ops db' Hrun. pose proof (run_ok ops db db' Hok Hrun) as Hok'.
    split; [apply Hok'|exact Hok'].
  - intros self p q new_id db' it Hadd. apply get_Ok_filter.
    destruct (add_product_cases db self p q Hok new_id db' it Hadd)
      as [(old & Hget & Hq & -> & ->)|(Hget & Hq & Hfresh & -> & ->)].
    + by apply (add_product_present db self p q Hok new_id old).
    + by apply (add_product_absent db self p q Hok new_id).
Qed.

Lemma unique_lines_preserved_witness :
  exists db',
    run Sample.empty_db
        [AddProduct Sample.cart (ABook Sample.book) 2 7;
         AddProduct Sample.cart (ABook Sample.book) 3 8;
         AddProduct Sample.cart (AMusicAlbum Sample.album) 1 9]
    = Ok db'
    /\ unique_together (cart_items db')
    /\ length (cart_items db') = 2%nat.
Proof.
  eexists. split; [reflexivity|]. split; [|reflexivity].
  exact (proj1 (proj1 (unique_lines_preserved Sample.empty_db
                         Sample_empty_db_ok)
                  [AddProduct Sample.cart (ABook Sample.book) 2 7;
                   AddProduct Sample.cart (ABook Sample.book) 3 8;
                   AddProduct Sample.cart (AMusicAlbum Sample.album) 1 9]
                  _ eq_refl)).
Defined.




(** ** Quantities below 1 *)

Lemma serializer_rejects_small_quantity (db : Database) (d : Views.Payload)
    (q : Z) :
  Views.quantity d = Some q -> q < 1 ->
  exists errors,
    Views.AddProductSerializer db d = inl errors
    /\ Views.InvalidQuantity ∈ errors.
Proof.
  intros Hd Hq. unfold Views.AddProductSerializer.
  rewrite Hd, (proj2 (Z.ltb_lt _ _) Hq).
  destruct (Views.parse_product_type (Views.product_type d)).
  - eexists. split; [reflexivity|]. by left.
  - eexists. split; [reflexivity|]. right. by left.
Qed.

(** C7, as the code has it.  The quantity is checked at the boundary,
    before the cart is touched: for a payload whose quantity is below
    1 the add-product action answers 400 with [InvalidQuantity] among
    the errors (404 when the cart is not one of the user's), and the
    database it returns is the one it was given. *)
Theorem add_product_action_rejects_small_quantity (db : Database)
    (request : Views.Request) (pk new_id : uuid) (q : Z) :
  Views.quantity (Views.data request) = Some q -> q < 1 ->
  match Views.get_object db request pk with
  | None => Views.add_product db request pk new_id = Ok (db, Views.Http404)
  | Some _ =>
      exists errors,
        Views.add_product db request pk new_id
        = Ok (db, Views.mkResponse (Views.Errors errors)
                    Views.HTTP_400_BAD_REQUEST)
        /\ Views.InvalidQuantity ∈ errors
  end.
Proof.
  intros Hd Hq. unfold Views.add_product.
  destruct (Views.get_object db request pk) as [cart|]; [|reflexivity].
  destruct (serializer_rejects_small_quantity db (Views.data request) q Hd Hq)
    as (errors & -> & Hin).
  by exists errors.
Qed.

Lemma add_product_action_rejects_small_quantity_witness :
  exists errors,
    Views.add_product Sample.empty_db
      (Views.mkRequest 3 (Views.mkPayload "book" 1 (Some 0))) 5 7
    = Ok (Sample.empty_db,
          Views.mkResponse (Views.Errors errors) Views.HTTP_400_BAD_REQUEST)
    /\ Views.InvalidQuantity ∈ errors.
Proof.
  exact (add_product_action_rejects_small_quantity Sample.empty_db
           (Views.mkRequest 3 (Views.mkPayload "book" 1 (Some 0))) 5 7 0
           eq_refl ltac:(lia)).
Defined.

(** The claim C7 as written fails for the cart's own [add_product]: it
    takes any quantity.  With quantity 0 on a cart without the line it
    succeeds and creates a line; with quantity -1 on a line of two it
    succeeds and leaves a line of one. *)
Lemma add_product_takes_small_quantity :
  (exists db' it,
     add_product Sample.empty_db Sample.cart (ABook Sample.book) 0 7
     = Ok (db', it)
     /\ cart_items Sample.empty_db = []
     /\ cart_items db' = [it]
     /\ ShoppingCartItem.quantity it = 0)
  /\ (exists db' it,
        add_product Sample.db Sample.cart (ABook Sample.book) (-1) 8
        = Ok (db', it)
        /\ cart_items Sample.db = [Sample.line]
        /\ cart_items db' = [it]
        /\ ShoppingCartItem.quantity Sample.line = 2
        /\ ShoppingCartItem.quantity it = 1).
Proof.
  split; eexists _, _; (split; [reflexivity|]); by repeat split.
Qed.

(** * Further properties of the cart *)

(** ** Lines of one cart after a write *)

Lemma set_cart_items_id (db : Database) : set_cart_items (cart_items db) db = db.
Proof. by destruct db. Qed.

Lemma update_row_absent (it : Item) (l : list Item) :
  (forall r, r ∈ l -> ShoppingCartItem.id r <> ShoppingCartItem.id it) ->
  update_row it l = l.
Proof.
  unfold update_row. induction l as [|r l IH]; intros H; [done|].
  cbn [map]. rewrite bool_decide_eq_false_2 by (apply H; left).
  f_equal. apply IH. intros r' Hr'. apply H. by right.
Qed.

Lemma update_row_twice (a b : Item) (l : list Item) :
  ShoppingCartItem.id a = ShoppingCartItem.id b ->
  update_row b (update_row a l) = update_row b l.
Proof.
  intros Hid. unfold update_row. rewrite map_map. apply map_ext. intros r.
  rewrite Hid. by repeat case_bool_decide.
Qed.

Lemma delete_row_update_row (it : Item) (l : list Item) :
  delete_row (ShoppingCartItem.id it) (update_row it l)
  = delete_row (ShoppingCartItem.id it) l.
Proof.
  unfold delete_row, update_row. induction l as [|r l IH]; [done|].
  cbn [map]. case_bool_decide as Hr.
  - rewrite !filter_cons_False by (intros H; by apply H). exact IH.
  - rewrite !filter_cons_True by done. by rewrite IH.
Qed.

Lemma filter_update_row (P : Item -> Prop) `{forall x, Decision (P x)}
    (it : Item) (l : list Item) :
  (forall r, r ∈ l -> ShoppingCartItem.id r = ShoppingCartItem.id it ->
             P r <-> P it) ->
  filter P (update_row it l) = update_row it (filter P l).
Proof.
  unfold update_row. induction l as [|r l IH]; intros Hl; [done|].
  assert (IH' := IH (fun r' Hr' => Hl r' (list_elem_of_further _ _ _ Hr'))).
  cbn [map]. case_bool_decide as Hr.
  - destruct (decide (P r)) as [HP|HP].
    + rewrite filter_cons_True by (apply (Hl r); [left|done..]).
      rewrite (filter_cons_True P r l) by done. cbn [map].
      rewrite bool_decide_eq_true_2 by done. by rewrite IH'.
    + rewrite filter_cons_False
        by (intros HP'; apply HP, (Hl r); [left|done..]).
      by rewrite (filter_cons_False P r l).
  - destruct (decide (P r)) as [HP|HP].
    + rewrite !filter_cons_True by done. cbn [map].
      rewrite bool_decide_eq_false_2 by done. by rewrite IH'.
    + by rewrite !filter_cons_False.
Qed.

Lemma length_update_row (it : Item) (l : list Item) :
  length (update_row it l) = length l.
Proof. apply length_map. Qed.

Section LinesAfter.
Variables (db : Database) (self : ShoppingCart.t).
Hypothesis Hok : db_ok db.

Lemma items_inserted (it : Item) :
  items (inserted db it) self
  = items db self
    ++ (if decide (ShoppingCartItem.cart it = ShoppingCart.id self)
        then [it] else []).
Proof using Type.
  unfold items, inserted. cbn [cart_items set_cart_items].
  rewrite filter_app.
  destruct (decide (ShoppingCartItem.cart it = ShoppingCart.id self)) as [E|E].
  - by rewrite (filter_cons_True _ it []).
  - by rewrite (filter_cons_False _ it []).
Qed.

Lemma items_updated (old it : Item) :
  old ∈ cart_items db ->
  ShoppingCartItem.id it = ShoppingCartItem.id old ->
  ShoppingCartItem.cart it = ShoppingCartItem.cart old ->
  items (updated db it) self = update_row it (items db self).
Proof using Hok.
  intros Hold Hid Hcart. unfold items, updated.
  cbn [cart_items set_cart_items]. apply filter_update_row.
  intros r Hr Hrid.
  assert (r = old) as ->; [|by rewrite Hcart].
  apply (column_inj ShoppingCartItem.id (cart_items db));
    [apply Hok|done..|congruence].
Qed.

Lemma items_deleted (old : Item) :
  items (delete db old) self
  = delete_row (ShoppingCartItem.id old) (items db self).
Proof using Type.
  unfold items, delete, delete_row. cbn [cart_items set_cart_items].
  rewrite !list_filter_filter. apply list_filter_iff. tauto.
Qed.

Lemma items_unique_pk : unique_pk (items db self).
Proof using Hok. apply column_filter_NoDup, Hok. Qed.
End LinesAfter.

Lemma key_cart (self : ShoppingCart.t) (p : Product) (it : Item) :
  ShoppingCartItem.key it = line_key self p ->
  ShoppingCartItem.cart it = ShoppingCart.id self.
Proof. unfold ShoppingCartItem.key, line_key. by intros [= -> _ _]. Qed.

Lemma length_delete_row_present (old : Item) (l : list Item) :
  unique_pk l -> old ∈ l ->
  length l = S (length (delete_row (ShoppingCartItem.id old) l)).
Proof.
  unfold unique_pk, delete_row. induction l as [|r l IH]; intros Hnd Hin.
  - inversion Hin.
  - rewrite fmap_cons in Hnd. apply NoDup_cons in Hnd as [Hr Hnd].
    destruct (decide (ShoppingCartItem.id r = ShoppingCartItem.id old)) as [E|E].
    + rewrite filter_cons_False by (intros H; by apply H).
      cbn [length]. f_equal.
      assert (Hall : forall x, x ∈ l ->
                ShoppingCartItem.id x <> ShoppingCartItem.id old).
      { intros x Hx Hxid. apply Hr. rewrite E, <- Hxid.
        by apply list_elem_of_fmap_2. }
      clear -Hall. induction l as [|x l IH]; [done|].
      rewrite filter_cons_True by (apply Hall; left). cbn [length].
      f_equal. apply IH. intros y Hy. apply Hall. by right.
    + rewrite filter_cons_True by done. cbn [length]. f_equal.
      apply IH; [done|]. apply elem_of_cons in Hin as [->|Hin]; [done|done].
Qed.

Lemma refresh_cart db it :
  ShoppingCartItem.cart (refresh db it) = ShoppingCartItem.cart it.
Proof. unfold refresh. by destruct (product db it). Qed.

Lemma delete_row_absent (pk : uuid) (l : list Item) :
  (forall r, r ∈ l -> ShoppingCartItem.id r <> pk) -> delete_row pk l = l.
Proof.
  unfold delete_row. induction l as [|r l IH]; intros H; [done|].
  rewrite filter_cons_True by (apply H; left). f_equal.
  apply IH. intros x Hx. apply H. by right.
Qed.

(** X2. A successful [add_product] raises the number of lines of the
    cart by one when the cart had no line for the product, and leaves
    it as it was when it had one. *)
Theorem item_count_after_add_product (db : Database) (self : ShoppingCart.t)
    (p : Product) (q : Z) (new_id : uuid) (db' : Database) (it' : Item) :
  db_ok db ->
  add_product db self p q new_id = Ok (db', it') ->
  length (items db' self)
  = (length (items db self)
     + match get (cart_items db) (line_key self p) with
       | Ok _ => 0
       | Raise _ => 1
       end)%nat.
Proof.
  intros Hok Hadd.
  destruct (add_product_cases db self p q Hok new_id db' it' Hadd)
    as [(old & Hget & Hq & Hit & ->)|(Hget & Hq & Hfresh & Hit & ->)];
    rewrite Hget.
  - apply get_Ok_elem in Hget as [Hin Hk].
    rewrite (items_updated db self Hok old it' Hin), length_update_row; [lia|..];
      subst it'; unfold incremented.
    + by rewrite refresh_id.
    + by rewrite refresh_cart.
  - rewrite items_inserted, length_app.
    rewrite decide_True; [done|].
    subst it'. unfold created. by rewrite refresh_cart.
Qed.

Lemma item_count_after_add_product_witness :
  exists db' it',
    add_product Sample.db Sample.cart (AMusicAlbum Sample.album) 4 9
    = Ok (db', it')
    /\ length (items db' Sample.cart) = 2%nat.
Proof.
  eexists _, _. split; [reflexivity|].
  exact (item_count_after_add_product Sample.db Sample.cart
           (AMusicAlbum Sample.album) 4 9 _ _
           (Sample_rows_ok Sample.db eq_refl) eq_refl).
Defined.

(** X4. A successful [remove_product] lowers the number of lines of
    the cart by one when it found a line whose quantity was at most the
    quantity to remove, and leaves the number as it was otherwise. *)
Theorem item_count_after_remove_product (db : Database)
    (self : ShoppingCart.t) (p : Product) (q : Z) (db' : Database)
    (b : bool) :
  db_ok db ->
  remove_product db self p q = Ok (db', b) ->
  length (items db self)
  = (length (items db' self)
     + match get (cart_items db) (line_key self p) with
       | Ok old => if (ShoppingCartItem.quantity old <=? q)%Z then 1 else 0
       | Raise _ => 0
       end)%nat.
Proof.
  intros Hok Hrem.
  destruct (remove_product_cases db self p q Hok db' b Hrem)
    as [(Hget & -> & _)|[(old & Hget & Hq & -> & _)|(old & Hget & Hq & -> & _)]];
    rewrite Hget.
  - lia.
  - rewrite (proj2 (Z.leb_le _ _) Hq).
    apply get_Ok_elem in Hget as [Hin Hk].
    rewrite items_deleted.
    rewrite (length_delete_row_present old (items db self)); [lia| |].
    + by apply items_unique_pk.
    + apply list_elem_of_filter. split; [|done]. by apply (key_cart self p).
  - rewrite (proj2 (Z.leb_gt _ _) Hq).
    apply get_Ok_elem in Hget as [Hin Hk].
    rewrite (items_updated db self Hok old), length_update_row; [lia|done|..];
      unfold decremented.
    + by rewrite refresh_id.
    + by rewrite refresh_cart.
Qed.

Lemma item_count_after_remove_product_witness :
  exists db',
    remove_product Sample.db Sample.cart (ABook Sample.book) 2 = Ok (db', true)
    /\ length (items Sample.db Sample.cart) = S (length (items db' Sample.cart)).
Proof.
  eexists. split; [reflexivity|].
  rewrite (item_count_after_remove_product Sample.db Sample.cart
             (ABook Sample.book) 2 _ true
             (Sample_rows_ok Sample.db eq_refl) eq_refl).
  reflexivity.
Defined.

(** ** Other carts *)

Section OtherCart.
Variables (db : Database) (self other : ShoppingCart.t).
Hypothesis Hok : db_ok db.
Hypothesis Hother : ShoppingCart.id other <> ShoppingCart.id self.

Lemma items_other_updated (old it : Item) :
  old ∈ cart_items db ->
  ShoppingCartItem.cart old = ShoppingCart.id self ->
  ShoppingCartItem.id it = ShoppingCartItem.id old ->
  ShoppingCartItem.cart it = ShoppingCartItem.cart old ->
  items (updated db it) other = items db other.
Proof using Hok Hother.
  intros Hin Hcart Hid Hc.
  rewrite (items_updated db other Hok old it Hin Hid Hc).
  apply update_row_absent. intros r Hr Hrid.
  apply list_elem_of_filter in Hr as [Hrc Hr].
  assert (r = old) as ->; [|congruence].
  apply (column_inj ShoppingCartItem.id (cart_items db));
    [apply Hok|done..|congruence].
Qed.

Lemma items_other_inserted (it : Item) :
  ShoppingCartItem.cart it = ShoppingCart.id self ->
  items (inserted db it) other = items db other.
Proof using Hother.
  intros Hc. rewrite items_inserted, decide_False by congruence.
  apply app_nil_r.
Qed.

Lemma items_other_deleted (old : Item) :
  old ∈ cart_items db ->
  ShoppingCartItem.cart old = ShoppingCart.id self ->
  items (delete db old) other = items db other.
Proof using Hok Hother.
  intros Hin Hcart. rewrite items_deleted.
  apply delete_row_absent. intros r Hr Hrid.
  apply list_elem_of_filter in Hr as [Hrc Hr].
  assert (r = old) as ->; [|congruence].
  by apply (column_inj ShoppingCartItem.id (cart_items db)); [apply Hok|..].
Qed.
End OtherCart.

(** X5. [add_product] and [remove_product] on one cart never touch
    another cart: its lines, in their order, its total price and its
    total weight are the same before and after. *)
Theorem other_carts_untouched (db : Database) (self other : ShoppingCart.t)
    (p : Product) (q : Z) :
  db_ok db ->
  ShoppingCart.id other <> ShoppingCart.id self ->
  (forall new_id db' it',
     add_product db self p q new_id = Ok (db', it') ->
     items db' other = items db other
     /\ calculate_total_price db' other = calculate_total_price db other
     /\ calculate_total_weight db' other = calculate_total_weight db other)
  /\ (forall db' b,
        remove_product db self p q = Ok (db', b) ->
        items db' other = items db other
        /\ calculate_total_price db' other = calculate_total_price db other
        /\ calculate_total_weight db' other = calculate_total_weight db other).
Proof.
  intros Hok Hother.
  assert (Htot : forall db',
            sum_products db' = sum_products db ->
            items db' other = items db other ->
            items db' other = items db other
            /\ calculate_total_price db' other = calculate_total_price db other
            /\ calculate_total_weight db' other
               = calculate_total_weight db other).
  { intros db' Es E. unfold calculate_total_price, calculate_total_weight, Sum.
    by rewrite E, Es. }
  split.
  - intros new_id db' it' Hadd.
    destruct (add_product_cases db self p q Hok new_id db' it' Hadd)
      as [(old & Hget & Hq & Hit & ->)|(Hget & Hq & Hfresh & Hit & ->)];
      (apply Htot; [reflexivity|]).
    + apply get_Ok_elem in Hget as [Hin Hk].
      apply (items_other_updated db self other Hok Hother old);
        [done|by apply (key_cart self p)|..]; subst it'; unfold incremented.
      * by rewrite refresh_id.
      * by rewrite refresh_cart.
    + apply (items_other_inserted db self other Hother).
      subst it'. unfold created. by rewrite refresh_cart.
  - intros db' b Hrem.
    destruct (remove_product_cases db self p q Hok db' b Hrem)
      as [(Hget & -> & _)|[(old & Hget & Hq & -> & _)|(old & Hget & Hq & -> & _)]];
      (apply Htot; [reflexivity|]).
    + done.
    + apply get_Ok_elem in Hget as [Hin Hk].
      apply (items_other_deleted db self other Hok Hother old);
        [done|by apply (key_cart self p)].
    + apply get_Ok_elem in Hget as [Hin Hk].
      apply (items_other_updated db self other Hok Hother old);
        [done|by apply (key_cart self p)|..]; unfold decremented.
      * by rewrite refresh_id.
      * by rewrite refresh_cart.
Qed.

Lemma other_carts_untouched_witness :
  exists db' it',
    add_product Sample.db (ShoppingCart.mk 6 None) (ABook Sample.book) 1 9
    = Ok (db', it')
    /\ items db' Sample.cart = items Sample.db Sample.cart.
Proof.
  eexists _, _. split; [reflexivity|].
  exact (proj1 (proj1 (other_carts_untouched Sample.db (ShoppingCart.mk 6 None)
                         Sample.cart (ABook Sample.book) 1
                         (Sample_rows_ok Sample.db eq_refl)
                         ltac:(discriminate)) 9%N _ _ eq_refl)).
Defined.

(** ** Operations in sequence *)

Lemma delete_inserted (db : Database) (it : Item) :
  ShoppingCartItem.id it ∉ (ShoppingCartItem.id <$> cart_items db) ->
  delete (inserted db it) it = db.
Proof.
  intros Hfresh. unfold delete, inserted, delete_row.
  cbn [cart_items set_cart_items books music_albums software_licenses carts
       sum_products].
  rewrite filter_app, (filter_cons_False _ it []) by (intros H; by apply H).
  rewrite filter_nil, app_nil_r.
  fold (delete_row (ShoppingCartItem.id it) (cart_items db)).
  rewrite delete_row_absent; [by destruct db|].
  intros r Hr Hrid. apply Hfresh. rewrite <- Hrid.
  by apply list_elem_of_fmap_2.
Qed.

Lemma refresh_same_catalog (db db' : Database) (it : Item) :
  same_catalog db db' -> refresh db' it = refresh db it.
Proof.
  intros Hc. unfold refresh, product. by rewrite (same_catalog_resolve db db').
Qed.

Lemma refresh_with_quantity (db : Database) (n : Z) (it : Item) :
  refresh db (ShoppingCartItem.with_quantity n (refresh db it))
  = refresh db (ShoppingCartItem.with_quantity n it).
Proof.
  unfold refresh, product.
  destruct (resolve db (ShoppingCartItem.content_type it)
              (ShoppingCartItem.object_id it)) as [live|] eqn:E;
    cbn [ShoppingCartItem.with_quantity ShoppingCartItem.with_cache
         ShoppingCartItem.content_type ShoppingCartItem.object_id];
    by rewrite E.
Qed.

Lemma updated_updated (db : Database) (a b : Item) :
  ShoppingCartItem.id a = ShoppingCartItem.id b ->
  updated (updated db a) b = updated db b.
Proof.
  intros Hid. unfold updated, set_cart_items.
  cbn [cart_items books music_albums software_licenses carts sum_products].
  by rewrite update_row_twice.
Qed.

Lemma updated_inserted (db : Database) (a b : Item) :
  ShoppingCartItem.id a = ShoppingCartItem.id b ->
  ShoppingCartItem.id a ∉ (ShoppingCartItem.id <$> cart_items db) ->
  updated (inserted db a) b = inserted db b.
Proof.
  intros Hid Hfresh. unfold updated, inserted, set_cart_items.
  cbn [cart_items books music_albums software_licenses carts sum_products]. f_equal.
  unfold update_row. rewrite map_app. cbn [map].
  rewrite bool_decide_eq_true_2 by done. f_equal.
  apply update_row_absent. intros r Hr Hrid. apply Hfresh.
  rewrite Hid, <- Hrid. by apply list_elem_of_fmap_2.
Qed.

Lemma delete_updated (db : Database) (a b : Item) :
  ShoppingCartItem.id a = ShoppingCartItem.id b ->
  delete (updated db a) a = delete db b.
Proof.
  intros Hid. unfold delete, updated, set_cart_items.
  cbn [cart_items books music_albums software_licenses carts sum_products].
  by rewrite delete_row_update_row, Hid.
Qed.

(** X6. Adding [q >= 0] of a product and then removing [q] of it
    undoes the add.  When the cart had no line for the product the
    database is back to exactly what it was; when it had a line of
    quantity at least 1, that line is there again, under the same
    primary key and with the same quantity. *)
Theorem add_then_remove_product (db : Database) (self : ShoppingCart.t)
    (p : Product) (q : Z) (new_id : uuid) :
  db_ok db -> 0 <= q ->
  (get (cart_items db) (line_key self p) = Raise DoesNotExist ->
   new_id ∉ (ShoppingCartItem.id <$> cart_items db) ->
   exists db1 it1,
     add_product db self p q new_id = Ok (db1, it1)
     /\ remove_product db1 self p q = Ok (db, true))
  /\ (forall old,
        get (cart_items db) (line_key self p) = Ok old ->
        1 <= ShoppingCartItem.quantity old ->
        exists db1 it1 db2 it2,
          add_product db self p q new_id = Ok (db1, it1)
          /\ remove_product db1 self p q = Ok (db2, true)
          /\ get (cart_items db2) (line_key self p) = Ok it2
          /\ ShoppingCartItem.id it2 = ShoppingCartItem.id old
          /\ ShoppingCartItem.quantity it2 = ShoppingCartItem.quantity old).
Proof.
  intros Hok Hq. split.
  - intros Hget Hfresh.
    destruct (add_product_absent db self p q Hok new_id Hget Hq Hfresh)
      as (E1 & Hok1 & (_ & Hget1 & _)).
    eexists _, _. split; [exact E1|].
    destruct (remove_product_all _ self p q Hok1 _ Hget1) as (E2 & _).
    { unfold created. rewrite refresh_quantity. cbn. lia. }
    rewrite E2. do 2 f_equal. apply delete_inserted.
    unfold created. by rewrite refresh_id.
  - intros old Hget Hold.
    destruct (add_product_present db self p q Hok new_id old Hget)
      as (E1 & Hok1 & (_ & Hget1 & _)); [lia|].
    assert (Hqa : ShoppingCartItem.quantity (incremented db q old)
                  = ShoppingCartItem.quantity old + q)
      by (unfold incremented; by rewrite refresh_quantity).
    destruct (remove_product_some _ self p q Hok1 _ Hget1)
      as (E2 & _ & (_ & Hget2 & _)); [lia|].
    eexists _, _, _, _. split; [exact E1|]. split; [exact E2|].
    split; [exact Hget2|].
    unfold decremented. rewrite refresh_id, refresh_quantity.
    cbn [ShoppingCartItem.with_quantity ShoppingCartItem.id
         ShoppingCartItem.quantity].
    rewrite Hqa. unfold incremented. rewrite refresh_id. split; [done|lia].
Qed.

Lemma add_then_remove_product_witness :
  exists db1 it1,
    add_product Sample.db Sample.cart (AMusicAlbum Sample.album) 3 9
    = Ok (db1, it1)
    /\ remove_product db1 Sample.cart (AMusicAlbum Sample.album) 3
       = Ok (Sample.db, true).
Proof.
  exact (proj1 (add_then_remove_product Sample.db Sample.cart
                  (AMusicAlbum Sample.album) 3 9
                  (Sample_rows_ok Sample.db eq_refl) ltac:(lia))
           eq_refl
           ltac:(cbn; rewrite list_elem_of_singleton; discriminate)).
Defined.

(** X7. Two adds of the same product amount to one add of the sum:
    for [q1, q2 >= 0], [add_product] with [q1] followed by
    [add_product] with [q2] ends in the database, and returns the
    item, that a single [add_product] with [q1 + q2] gives. *)
Theorem add_product_twice (db : Database) (self : ShoppingCart.t)
    (p : Product) (q1 q2 : Z) (id1 id2 : uuid) :
  db_ok db -> 0 <= q1 -> 0 <= q2 ->
  id1 ∉ (ShoppingCartItem.id <$> cart_items db) ->
  exists db1 it1 db2 it2,
    add_product db self p q1 id1 = Ok (db1, it1)
    /\ add_product db1 self p q2 id2 = Ok (db2, it2)
    /\ add_product db self p (q1 + q2) id1 = Ok (db2, it2).
Proof.
  intros Hok Hq1 Hq2 Hfresh.
  destruct (get_unique_cases (cart_items db) (line_key self p)
              (proj1 (proj2 Hok))) as [Hget|[old Hget]].
  - destruct (add_product_absent db self p q1 Hok id1 Hget Hq1 Hfresh)
      as (E1 & Hok1 & (Hcat & Hget1 & _)).
    assert (Hqc : ShoppingCartItem.quantity (created db self p q1 id1) = q1)
      by (unfold created; by rewrite refresh_quantity).
    destruct (add_product_present _ self p q2 Hok1 id2 _ Hget1)
      as (E2 & _); [lia|].
    destruct (add_product_absent db self p (q1 + q2) Hok id1 Hget)
      as (E3 & _); [lia|done|].
    eexists _, _, _, _. split; [exact E1|]. split; [exact E2|]. rewrite E3.
    assert (Hit : incremented (inserted db (created db self p q1 id1)) q2
                    (created db self p q1 id1)
                  = created db self p (q1 + q2) id1).
    { unfold incremented. rewrite (refresh_same_catalog db) by done.
      rewrite Hqc. unfold created. by rewrite refresh_with_quantity. }
    rewrite Hit. do 2 f_equal. symmetry. apply updated_inserted.
    + unfold created. by rewrite !refresh_id.
    + unfold created. by rewrite refresh_id.
  - apply get_Ok_elem in Hget as Hit0. destruct Hit0 as [Hin _].
    pose proof (stored_quantity db old Hok Hin) as Hq0.
    destruct (add_product_present db self p q1 Hok id1 old Hget)
      as (E1 & Hok1 & (Hcat & Hget1 & _)); [lia|].
    assert (Hqa : ShoppingCartItem.quantity (incremented db q1 old)
                  = ShoppingCartItem.quantity old + q1)
      by (unfold incremented; by rewrite refresh_quantity).
    destruct (add_product_present _ self p q2 Hok1 id2 _ Hget1)
      as (E2 & _); [lia|].
    destruct (add_product_present db self p (q1 + q2) Hok id1 old Hget)
      as (E3 & _); [lia|].
    eexists _, _, _, _. split; [exact E1|]. split; [exact E2|]. rewrite E3.
    assert (Hit : incremented (updated db (incremented db q1 old)) q2
                    (incremented db q1 old)
                  = incremented db (q1 + q2) old).
    { unfold incremented at 1. rewrite (refresh_same_catalog db) by done.
      rewrite Hqa. unfold incremented. rewrite refresh_with_quantity.
      by rewrite Z.add_assoc. }
    rewrite Hit. do 2 f_equal. symmetry. apply updated_updated.
    unfold incremented. by rewrite !refresh_id.
Qed.

Lemma add_product_twice_witness :
  exists db1 it1 db2 it2,
    add_product Sample.db Sample.cart (ABook Sample.book) 1 8 = Ok (db1, it1)
    /\ add_product db1 Sample.cart (ABook Sample.book) 2 9 = Ok (db2, it2)
    /\ add_product Sample.db Sample.cart (ABook Sample.book) (1 + 2) 8
       = Ok (db2, it2).
Proof.
  exact (add_product_twice Sample.db Sample.cart (ABook Sample.book) 1 2 8 9
           (Sample_rows_ok Sample.db eq_refl) ltac:(lia) ltac:(lia)
           ltac:(cbn; rewrite list_elem_of_singleton; discriminate)).
Defined.

(** X8. Two removes of the same product amount to one remove of the
    sum: for [q2 >= 0], [remove_product] with [q1] followed by
    [remove_product] with [q2] ends in the database that a single
    [remove_product] with [q1 + q2] gives, and the single call returns
    what the first of the two returned. *)
Theorem remove_product_twice (db : Database) (self : ShoppingCart.t)
    (p : Product) (q1 q2 : Z) :
  db_ok db -> 0 <= q2 ->
  exists db1 b1 db2 b2,
    remove_product db self p q1 = Ok (db1, b1)
    /\ remove_product db1 self p q2 = Ok (db2, b2)
    /\ remove_product db self p (q1 + q2) = Ok (db2, b1).
Proof.
  intros Hok Hq2.
  destruct (get_unique_cases (cart_items db) (line_key self p)
              (proj1 (proj2 Hok))) as [Hget|[old Hget]].
  - pose proof (remove_product_absent db self p q1 Hget) as E1.
    pose proof (remove_product_absent db self p q2 Hget) as E2.
    pose proof (remove_product_absent db self p (q1 + q2) Hget) as E3.
    by eexists _, _, _, _.
  - destruct (Z.le_gt_cases (ShoppingCartItem.quantity old) q1) as [Hq|Hq].
    + destruct (remove_product_all db self p q1 Hok old Hget Hq)
        as (E1 & Hok1 & (_ & Hget1 & _)).
      pose proof (remove_product_absent _ self p q2 Hget1) as E2.
      destruct (remove_product_all db self p (q1 + q2) Hok old Hget)
        as (E3 & _); [lia|].
      by eexists _, _, _, _.
    + destruct (remove_product_some db self p q1 Hok old Hget Hq)
        as (E1 & Hok1 & (Hcat & Hget1 & _)).
      assert (Hqd : ShoppingCartItem.quantity (decremented db q1 old)
                    = ShoppingCartItem.quantity old - q1)
        by (unfold decremented; by rewrite refresh_quantity).
      assert (Hidd : ShoppingCartItem.id (decremented db q1 old)
                     = ShoppingCartItem.id old)
        by (unfold decremented; by rewrite refresh_id).
      destruct (Z.le_gt_cases (ShoppingCartItem.quantity old - q1) q2)
        as [Hq'|Hq'].
      * destruct (remove_product_all _ self p q2 Hok1 _ Hget1)
          as (E2 & _); [lia|].
        destruct (remove_product_all db self p (q1 + q2) Hok old Hget)
          as (E3 & _); [lia|].
        eexists _, _, _, _. split; [exact E1|]. split; [exact E2|].
        rewrite E3. do 2 f_equal. symmetry. by apply delete_updated.
      * destruct (remove_product_some _ self p q2 Hok1 _ Hget1)
          as (E2 & _); [lia|].
        destruct (remove_product_some db self p (q1 + q2) Hok old Hget)
          as (E3 & _); [lia|].
        eexists _, _, _, _. split; [exact E1|]. split; [exact E2|].
        rewrite E3.
        assert (Hit : decremented (updated db (decremented db q1 old)) q2
                        (decremented db q1 old)
                      = decremented db (q1 + q2) old).
        { unfold decremented at 1. rewrite (refresh_same_catalog db) by done.
          rewrite Hqd. unfold decremented. rewrite refresh_with_quantity.
          by rewrite Z.sub_add_distr. }
        rewrite Hit. do 2 f_equal. symmetry. apply updated_updated.
        unfold decremented. by rewrite !refresh_id.
Qed.

Lemma remove_product_twice_witness :
  exists db1 db2 b2,
    remove_product Sample.db Sample.cart (ABook Sample.book) 1 = Ok (db1, true)
    /\ remove_product db1 Sample.cart (ABook Sample.book) 1 = Ok (db2, b2)
    /\ remove_product Sample.db Sample.cart (ABook Sample.book) (1 + 1)
       = Ok (db2, true).
Proof.
  destruct (remove_product_twice Sample.db Sample.cart (ABook Sample.book) 1 1
              (Sample_rows_ok Sample.db eq_refl) ltac:(lia))
    as (db1 & b1 & db2 & b2 & E1 & E2 & E3).
  assert (b1 = true) as ->.
  { vm_compute in E1. by injection E1 as _ <-. }
  by exists db1, db2, b2.
Defined.

(** ** Quantities below zero *)

(** X9. On a line that is present, [remove_product] with a negative
    quantity [-q] does what [add_product] with [q] does: it never
    deletes the line, it returns [True], and it leaves the database
    that the add leaves, the line's quantity raised by [q]. *)
Theorem remove_product_negative_adds (db : Database) (self : ShoppingCart.t)
    (p : Product) (q : Z) (new_id : uuid) (old : Item) :
  db_ok db ->
  get (cart_items db) (line_key self p) = Ok old ->
  0 < q ->
  exists db' it',
    remove_product db self p (- q) = Ok (db', true)
    /\ add_product db self p q new_id = Ok (db', it')
    /\ get (cart_items db') (line_key self p) = Ok it'
    /\ ShoppingCartItem.quantity it' = ShoppingCartItem.quantity old + q.
Proof.
  intros Hok Hget Hq.
  apply get_Ok_elem in Hget as Hit0. destruct Hit0 as [Hin _].
  pose proof (stored_quantity db old Hok Hin) as Hq0.
  destruct (remove_product_some db self p (- q) Hok old Hget) as (E1 & _);
    [lia|].
  destruct (add_product_present db self p q Hok new_id old Hget)
    as (E2 & _ & (_ & Hget2 & _)); [lia|].
  assert (Hit : decremented db (- q) old = incremented db q old).
  { unfold decremented, incremented. by rewrite Z.sub_opp_r. }
  rewrite Hit in E1.
  eexists _, _. split; [exact E1|]. split; [exact E2|]. split; [exact Hget2|].
  unfold incremented. by rewrite refresh_quantity.
Qed.

Lemma remove_product_negative_adds_witness :
  exists db' it',
    remove_product Sample.db Sample.cart (ABook Sample.book) (- 3)
    = Ok (db', true)
    /\ ShoppingCartItem.quantity it' = 2 + 3.
Proof.
  destruct (remove_product_negative_adds Sample.db Sample.cart
              (ABook Sample.book) 3 8 Sample.line
              (Sample_rows_ok Sample.db eq_refl) eq_refl ltac:(lia))
    as (db' & it' & E & _ & _ & Hq).
  by exists db', it'.
Defined.

(** * Properties of the actions *)

Lemma get_object_foreign (db : Database) (request : Views.Request) (pk : uuid) :
  (forall c, carts db !! pk = Some c ->
             ShoppingCart.user c <> Some (Views.user request)) ->
  Views.get_object db request pk = None.
Proof.
  intros H. unfold Views.get_object.
  destruct (carts db !! pk) as [c|]; [|done].
  by rewrite bool_decide_eq_false_2 by (by apply H).
Qed.

(** X11. A cart that does not exist, or that belongs to someone other
    than the requesting user, is out of reach of every cart action:
    add-product and remove-product (whatever their serializers),
    clear and totals all answer 404, and the database stays as it
    was. *)
Theorem foreign_cart_is_not_found {E : Type}
    (AddProductSerializer RemoveProductSerializer : Actions.Serializer E)
    (db : Database) (request : Views.Request) (pk new_id : uuid) :
  (forall c, carts db !! pk = Some c ->
             ShoppingCart.user c <> Some (Views.user request)) ->
  Actions.add_product AddProductSerializer db request pk new_id
  = Ok (db, Actions.Http404)
  /\ Actions.remove_product RemoveProductSerializer db request pk
     = Ok (db, Actions.Http404)
  /\ Views.clear_cart db request pk = (db, Views.Http404)
  /\ Views.get_totals db request pk = Views.Http404.
Proof.
  intros H. pose proof (get_object_foreign db request pk H) as E0.
  unfold Actions.add_product, Actions.remove_product, Views.clear_cart,
    Views.get_totals.
  by rewrite E0.
Qed.

Lemma foreign_cart_is_not_found_witness :
  Views.clear_cart Sample.db (Views.mkRequest 4 (Views.mkPayload "" 0 None)) 5
  = (Sample.db, Views.Http404).
Proof.
  refine (proj1 (proj2 (proj2
            (foreign_cart_is_not_found (E := unit)
               (fun _ _ => inl tt) (fun _ _ => inl tt) Sample.db
               (Views.mkRequest 4 (Views.mkPayload "" 0 None)) 5 0 _)))).
  intros c Hc. vm_compute in Hc. injection Hc as <-. discriminate.
Defined.

(** X12. Only an answer of 200 comes with a write: when add-product or
    remove-product, with any serializer, answers with another status
    (400 for a rejected payload, 404 for a cart or a line that is not
    found), the database it returns is the one it was given. *)
Theorem only_200_writes {E : Type} (serializer : Actions.Serializer E)
    (db : Database) (request : Views.Request) (pk new_id : uuid) :
  db_ok db ->
  (forall db' response,
     Actions.add_product serializer db request pk new_id = Ok (db', response) ->
     Actions.status response <> Views.HTTP_200_OK -> db' = db)
  /\ (forall db' response,
        Actions.remove_product serializer db request pk = Ok (db', response) ->
        Actions.status response <> Views.HTTP_200_OK -> db' = db).
Proof.
  intros Hok. split; intros db' response.
  - unfold Actions.add_product.
    destruct (Views.get_object db request pk) as [cart|];
      [|by intros [= <- <-]].
    destruct (serializer db (Views.data request)) as [errors|vd];
      [by intros [= <- <-]|].
    cbn zeta. destruct (add_product _ _ _ _ _) as [[d it]|e]; [|done].
    cbn [bind fst]. intros [= <- <-] Hst. by destruct Hst.
  - unfold Actions.remove_product.
    destruct (Views.get_object db request pk) as [cart|];
      [|by intros [= <- <-]].
    destruct (serializer db (Views.data request)) as [errors|vd];
      [by intros [= <- <-]|].
    cbn zeta. destruct (remove_product _ _ _ _) as [[d b]|e] eqn:Erem; [|done].
    cbn [bind]. destruct b.
    + intros [= <- <-] Hst. by destruct Hst.
    + intros [= <- <-] _.
      destruct (remove_product_cases _ _ _ _ Hok _ _ Erem)
        as [(_ & -> & _)|[(old & _ & _ & _ & Hb)|(old & _ & _ & _ & Hb)]];
        [done|discriminate Hb..].
Qed.

Lemma only_200_writes_witness :
  exists db' response,
    Actions.remove_product (E := unit)
      (fun _ _ => inr (Views.mkValidatedData (AMusicAlbum Sample.album) None))
      Sample.db (Views.mkRequest 3 (Views.mkPayload "musicalbum" 2 None)) 5
    = Ok (db', response)
    /\ Actions.status response = Views.HTTP_404_NOT_FOUND
    /\ db' = Sample.db.
Proof.
  eexists _, _. split; [reflexivity|]. split; [reflexivity|].
  refine (proj2 (only_200_writes (E := unit)
                   (fun _ _ => inr (Views.mkValidatedData
                                      (AMusicAlbum Sample.album) None))
                   Sample.db
                   (Views.mkRequest 3 (Views.mkPayload "musicalbum" 2 None))
                   5 0 (Sample_rows_ok Sample.db eq_refl)) _ _ eq_refl _).
  discriminate.
Defined.

(** X13. For a payload its serializer accepts, on a cart of the
    requesting user, remove-product answers 404 with the message
    "Product not found in cart" exactly when the cart has no line for
    the product, and then writes nothing; otherwise it answers 200 and
    the line is gone if its quantity was at most the quantity to
    remove (1 when the payload gives none), else lowered by it. *)
Theorem remove_product_action {E : Type}
    (serializer : Actions.Serializer E) (db : Database)
    (request : Views.Request) (pk : uuid) (cart : ShoppingCart.t)
    (vd : Views.ValidatedData) :
  db_ok db ->
  Views.get_object db request pk = Some cart ->
  serializer db (Views.data request) = inr vd ->
  let q := default 1 (Views.vd_quantity vd) in
  let k := line_key cart (Views.vd_product vd) in
  match get (cart_items db) k with
  | Raise _ =>
      Actions.remove_product serializer db request pk
      = Ok (db, Actions.mkResponse (Actions.Message "Product not found in cart")
                  Views.HTTP_404_NOT_FOUND)
  | Ok old =>
      exists db',
        Actions.remove_product serializer db request pk
        = Ok (db', Actions.mkResponse
                     (Actions.MessageCart
                        "Product removed from cart successfully" cart)
                     Views.HTTP_200_OK)
        /\ get (cart_items db') k
           = (if ShoppingCartItem.quantity old <=? q
              then Raise DoesNotExist
              else Ok (decremented db q old))
        /\ ShoppingCartItem.quantity (decremented db q old)
           = ShoppingCartItem.quantity old - q
  end.
Proof.
  intros Hok Hobj Hser q k. unfold Actions.remove_product.
  rewrite Hobj, Hser. cbn zeta. fold q.
  destruct (get_unique_cases (cart_items db) k (proj1 (proj2 Hok)))
    as [Hget|[old Hget]]; rewrite Hget.
  - by rewrite (remove_product_absent db cart _ q Hget).
  - destruct (Z.leb_spec (ShoppingCartItem.quantity old) q) as [Hq|Hq].
    + destruct (remove_product_all db cart _ q Hok old Hget Hq)
        as (-> & _ & (_ & Hl & _)).
      eexists. split; [reflexivity|]. split; [exact Hl|].
      unfold decremented. by rewrite refresh_quantity.
    + destruct (remove_product_some db cart _ q Hok old Hget Hq)
        as (-> & _ & (_ & Hl & _)).
      eexists. split; [reflexivity|]. split; [exact Hl|].
      unfold decremented. by rewrite refresh_quantity.
Qed.

Lemma remove_product_action_witness :
  exists db',
    Actions.remove_product (E := unit)
      (fun _ _ => inr (Views.mkValidatedData (ABook Sample.book) None))
      Sample.db (Views.mkRequest 3 (Views.mkPayload "book" 1 None)) 5
    = Ok (db', Actions.mkResponse
                 (Actions.MessageCart
                    "Product removed from cart successfully" Sample.cart)
                 Views.HTTP_200_OK)
    /\ get (cart_items db') (5%N, CTBook, 1%N)
       = Ok (decremented Sample.db 1 Sample.line).
Proof.
  destruct (remove_product_action (E := unit)
              (fun _ _ => inr (Views.mkValidatedData (ABook Sample.book) None))
              Sample.db (Views.mkRequest 3 (Views.mkPayload "book" 1 None)) 5
              Sample.cart (Views.mkValidatedData (ABook Sample.book) None)
              (Sample_rows_ok Sample.db eq_refl) eq_refl eq_refl)
    as (db' & E & Hl & _).
  exists db'. split; [exact E|exact Hl].
Defined.

(** X14. For a payload its serializer accepts, on a cart of the
    requesting user, add-product answers 200 and the cart then has the
    line for the product, its quantity the one it had before (0 if
    there was no line) plus the quantity of the payload, 1 when the
    payload gives none.  The quantity is taken not negative and the
    primary key drawn for a new line unused. *)
Theorem add_product_action {E : Type}
    (serializer : Actions.Serializer E) (db : Database)
    (request : Views.Request) (pk new_id : uuid) (cart : ShoppingCart.t)
    (vd : Views.ValidatedData) :
  db_ok db ->
  Views.get_object db request pk = Some cart ->
  serializer db (Views.data request) = inr vd ->
  let q := default 1 (Views.vd_quantity vd) in
  let k := line_key cart (Views.vd_product vd) in
  0 <= q ->
  new_id ∉ (ShoppingCartItem.id <$> cart_items db) ->
  exists db' it',
    Actions.add_product serializer db request pk new_id
    = Ok (db', Actions.mkResponse
                 (Actions.MessageCart "Product added to cart successfully" cart)
                 Views.HTTP_200_OK)
    /\ get (cart_items db') k = Ok it'
    /\ ShoppingCartItem.quantity it'
       = match get (cart_items db) k with
         | Ok old => ShoppingCartItem.quantity old
         | Raise _ => 0
         end + q.
Proof.
  intros Hok Hobj Hser q k Hq Hfresh. unfold Actions.add_product.
  rewrite Hobj, Hser. cbn zeta. fold q.
  destruct (get_unique_cases (cart_items db) k (proj1 (proj2 Hok)))
    as [Hget|[old Hget]]; rewrite Hget.
  - destruct (add_product_absent db cart _ q Hok new_id Hget Hq Hfresh)
      as (-> & _ & (_ & Hl & _)).
    eexists _, _. split; [reflexivity|]. split; [exact Hl|].
    unfold created. by rewrite refresh_quantity.
  - apply get_Ok_elem in Hget as Hit0. destruct Hit0 as [Hin _].
    pose proof (stored_quantity db old Hok Hin) as Hq0.
    destruct (add_product_present db cart _ q Hok new_id old Hget)
      as (-> & _ & (_ & Hl & _)); [lia|].
    eexists _, _. split; [reflexivity|]. split; [exact Hl|].
    unfold incremented. by rewrite refresh_quantity.
Qed.

Lemma add_product_action_witness :
  exists db' it',
    Actions.add_product (E := unit)
      (fun _ _ => inr (Views.mkValidatedData (ABook Sample.book) None))
      Sample.db (Views.mkRequest 3 (Views.mkPayload "book" 1 None)) 5 8
    = Ok (db', Actions.mkResponse
                 (Actions.MessageCart "Product added to cart successfully"
                    Sample.cart)
                 Views.HTTP_200_OK)
    /\ ShoppingCartItem.quantity it' = 2 + 1.
Proof.
  destruct (add_product_action (E := unit)
              (fun _ _ => inr (Views.mkValidatedData (ABook Sample.book) None))
              Sample.db (Views.mkRequest 3 (Views.mkPayload "book" 1 None)) 5 8
              Sample.cart (Views.mkValidatedData (ABook Sample.book) None)
              (Sample_rows_ok Sample.db eq_refl) eq_refl eq_refl
              ltac:(cbn; lia)
              ltac:(cbn; rewrite list_elem_of_singleton; discriminate))
    as (db' & it' & E & _ & Hq).
  exists db', it'. split; [exact E|exact Hq].
Defined.

(** ** The user's cart *)

Lemma carts_of_none (db : Database) (u : uuid) :
  (forall k c, carts db !! k = Some c -> ShoppingCart.user c <> Some u) ->
  Actions.carts_of db u = [].
Proof.
  intros H. unfold Actions.carts_of.
  destruct (filter _ _) as [|c l] eqn:E; [done|]. exfalso.
  assert (Hc : c ∈ filter (fun c => ShoppingCart.user c = Some u)
                          ((map_to_list (carts db)).*2))
    by (rewrite E; left).
  apply list_elem_of_filter in Hc as [Hu Hc].
  apply list_elem_of_fmap in Hc as ([k c'] & -> & Hkc).
  apply elem_of_map_to_list in Hkc. by apply (H k c').
Qed.

Lemma carts_of_insert (db : Database) (u k : uuid) (c : ShoppingCart.t) :
  carts db !! k = None ->
  Actions.carts_of (Actions.set_carts (<[k := c]> (carts db)) db) u
  ≡ₚ filter (fun c => ShoppingCart.user c = Some u) [c]
     ++ Actions.carts_of db u.
Proof.
  intros Hk. unfold Actions.carts_of. cbn [carts Actions.set_carts].
  rewrite (map_to_list_insert (carts db) k c Hk).
  rewrite fmap_cons. cbn [snd].
  by rewrite <- filter_app.
Qed.

Lemma carts_of_lookup (db : Database) (u k : uuid) (c : ShoppingCart.t) :
  carts db !! k = Some c ->
  Actions.carts_of db u
  ≡ₚ filter (fun c => ShoppingCart.user c = Some u) [c]
     ++ Actions.carts_of (Actions.set_carts (base.delete k (carts db)) db) u.
Proof.
  intros Hk. unfold Actions.carts_of. cbn [carts Actions.set_carts].
  rewrite <- (map_to_list_delete (carts db) k c Hk).
  rewrite fmap_cons. cbn [snd].
  by rewrite <- filter_app.
Qed.

Lemma get_cart_alone (db : Database) (u k : uuid) (c : ShoppingCart.t) :
  carts db !! k = Some c -> ShoppingCart.user c = Some u ->
  (forall k' c', carts db !! k' = Some c' ->
                 ShoppingCart.user c' = Some u -> k' = k) ->
  Actions.get_cart db u = Ok c.
Proof.
  intros Hk Hu Hall. unfold Actions.get_cart.
  pose proof (carts_of_lookup db u k c Hk) as Hp.
  rewrite (filter_cons_True _ c []), filter_nil in Hp by done.
  assert (Hrest : Actions.carts_of
                    (Actions.set_carts (base.delete k (carts db)) db) u = []).
  { apply carts_of_none. cbn [carts Actions.set_carts]. intros k' c' Hk' Hu'.
    apply lookup_delete_Some in Hk' as [Hne Hk'].
    apply Hne. symmetry. by apply (Hall k' c'). }
  rewrite Hrest in Hp. cbn [app] in Hp.
  apply Permutation_singleton_r in Hp. by rewrite Hp.
Qed.

(** X15. [get_my_cart] for a user who has no cart creates one owned by
    that user and answers 201; from then on it answers 200 with that
    same cart and creates nothing, the cart is the one [get_object]
    finds under its key for that user, and the cart items are as they
    were.  The primary key drawn for the new cart is taken unused. *)
Theorem get_my_cart_creates_once {E : Type} (db : Database)
    (request : Views.Request) (new_id : uuid) :
  (forall k c, carts db !! k = Some c ->
               ShoppingCart.user c <> Some (Views.user request)) ->
  carts db !! new_id = None ->
  exists db' cart,
    Actions.get_my_cart (E := E) db request new_id
    = Ok (db', Actions.mkResponse (Actions.Cart cart) Actions.HTTP_201_CREATED)
    /\ ShoppingCart.user cart = Some (Views.user request)
    /\ ShoppingCart.id cart = new_id
    /\ cart_items db' = cart_items db
    /\ Views.get_object db' request new_id = Some cart
    /\ forall id2,
         Actions.get_my_cart (E := E) db' request id2
         = Ok (db', Actions.mkResponse (Actions.Cart cart) Views.HTTP_200_OK).
Proof.
  intros Hnone Hnew.
  set (u := Views.user request).
  set (c := ShoppingCart.mk new_id (Some u)).
  set (db' := Actions.set_carts (<[new_id := c]> (carts db)) db).
  assert (Hget' : Actions.get_cart db' u = Ok c).
  { apply (get_cart_alone db' u new_id c).
    - unfold db'. cbn [carts Actions.set_carts]. apply lookup_insert_eq.
    - done.
    - unfold db'. cbn [carts Actions.set_carts]. intros k' c' Hk' Hu'.
      destruct (decide (k' = new_id)) as [->|Hne]; [done|].
      rewrite lookup_insert_ne in Hk' by done. by destruct (Hnone k' c'). }
  exists db', c.
  split.
  { unfold Actions.get_my_cart, Actions.get_or_create_cart, Actions.get_cart.
    fold u. rewrite (carts_of_none db u Hnone).
    unfold Actions.create_cart. by rewrite Hnew. }
  split; [done|]. split; [done|]. split; [done|]. split.
  { unfold Views.get_object, db'. cbn [carts Actions.set_carts].
    rewrite lookup_insert_eq. by rewrite bool_decide_eq_true_2. }
  intros id2.
  unfold Actions.get_my_cart, Actions.get_or_create_cart. fold u.
  by rewrite Hget'.
Qed.

Lemma get_my_cart_creates_once_witness :
  exists db' cart,
    Actions.get_my_cart (E := unit) Sample.db
      (Views.mkRequest 4 (Views.mkPayload "" 0 None)) 6
    = Ok (db', Actions.mkResponse (Actions.Cart cart) Actions.HTTP_201_CREATED)
    /\ ShoppingCart.user cart = Some 4%N.
Proof.
  destruct (get_my_cart_creates_once (E := unit) Sample.db
              (Views.mkRequest 4 (Views.mkPayload "" 0 None)) 6)
    as (db' & cart & E & Hu & _).
  - intros k c Hk. cbn in Hk.
    apply lookup_singleton_Some in Hk as [_ <-]. discriminate.
  - reflexivity.
  - by exists db', cart.
Defined.

(** X16. [get_my_cart] for a user who has exactly one cart answers 200
    with that cart and leaves the database as it was, whatever
    primary key was drawn. *)
Theorem get_my_cart_returns_existing {E : Type} (db : Database)
    (request : Views.Request) (new_id k : uuid) (cart : ShoppingCart.t) :
  carts db !! k = Some cart ->
  ShoppingCart.user cart = Some (Views.user request) ->
  (forall k' c', carts db !! k' = Some c' ->
                 ShoppingCart.user c' = Some (Views.user request) -> k' = k) ->
  Actions.get_my_cart (E := E) db request new_id
  = Ok (db, Actions.mkResponse (Actions.Cart cart) Views.HTTP_200_OK).
Proof.
  intros Hk Hu Hall.
  unfold Actions.get_my_cart, Actions.get_or_create_cart.
  by rewrite (get_cart_alone db _ k cart Hk Hu Hall).
Qed.

Lemma get_my_cart_returns_existing_witness :
  Actions.get_my_cart (E := unit) Sample.db
    (Views.mkRequest 3 (Views.mkPayload "" 0 None)) 6
  = Ok (Sample.db,
        Actions.mkResponse (Actions.Cart Sample.cart) Views.HTTP_200_OK).
Proof.
  apply (get_my_cart_returns_existing (E := unit) Sample.db
           (Views.mkRequest 3 (Views.mkPayload "" 0 None)) 6 5 Sample.cart).
  - reflexivity.
  - reflexivity.
  - intros k' c' Hk' _. cbn in Hk'.
    by apply lookup_singleton_Some in Hk' as [<- _].
Defined.

(** X17. [get_my_cart] for a user who has two carts or more raises
    [MultipleObjectsReturned]: it neither picks one nor creates
    another. *)
Theorem get_my_cart_with_two_carts {E : Type} (db : Database)
    (request : Views.Request) (new_id k1 k2 : uuid) (c1 c2 : ShoppingCart.t) :
  k1 <> k2 ->
  carts db !! k1 = Some c1 -> carts db !! k2 = Some c2 ->
  ShoppingCart.user c1 = Some (Views.user request) ->
  ShoppingCart.user c2 = Some (Views.user request) ->
  Actions.get_my_cart (E := E) db request new_id
  = Raise MultipleObjectsReturned.
Proof.
  intros Hne H1 H2 Hu1 Hu2.
  set (u := Views.user request) in *.
  pose proof (carts_of_lookup db u k1 c1 H1) as Hp1.
  rewrite (filter_cons_True _ c1 []), filter_nil in Hp1 by done.
  assert (H2' : carts (Actions.set_carts (base.delete k1 (carts db)) db) !! k2
                = Some c2).
  { cbn [carts Actions.set_carts]. by rewrite lookup_delete_ne. }
  pose proof (carts_of_lookup _ u k2 c2 H2') as Hp2.
  rewrite (filter_cons_True _ c2 []), filter_nil in Hp2 by done.
  apply Permutation_length in Hp1. apply Permutation_length in Hp2.
  rewrite length_app in Hp1, Hp2. cbn [length] in Hp1, Hp2.
  unfold Actions.get_my_cart, Actions.get_or_create_cart, Actions.get_cart.
  fold u.
  destruct (Actions.carts_of db u) as [|a [|b l]];
    [cbn in Hp1; lia..|].
  reflexivity.
Qed.

Lemma get_my_cart_with_two_carts_witness :
  Actions.get_my_cart (E := unit)
    (Actions.set_carts (<[6%N := ShoppingCart.mk 6 (Some 3%N)]>
                          (carts Sample.db)) Sample.db)
    (Views.mkRequest 3 (Views.mkPayload "" 0 None)) 7
  = Raise MultipleObjectsReturned.
Proof.
  apply (get_my_cart_with_two_carts (E := unit) _ _ 7 5 6
           Sample.cart (ShoppingCart.mk 6 (Some 3%N)));
    [discriminate|reflexivity..].
Defined.
